(** * AI Medical Assistant: session report lifecycle and DOCX export

    A shallow embedding of [app.py], the Streamlit script of the
    repository.  One execution of the script (a Streamlit [rerun]) is a
    function from the widget inputs of that run, the per-session
    [st.session_state] dictionary and the working directory of the
    process to the new session state, the new directory and the trace of
    user-visible effects.

    What is external to [app.py] is an argument of the model: the answer
    of [model.generate_content], the DOCX serializer of python-docx and
    the calls that the operating system, Pillow or python-docx can fail.
    The trace records messages, model requests and download offers.  The
    preview [st.image] decodes the upload and is part of the run as a
    call that can end it; [st.markdown], [st.spinner], [st.header] and
    the page setup cannot and are left out. *)

From stdpp Require Import gmap strings list fin_maps.

Local Open Scope string_scope.

(** ** Data *)

Abbreviation bytes := (list Byte.byte).

(** The object returned by [st.file_uploader]: its name, the mime type
    the browser reported for it, and the bytes [getvalue()] returns. *)
Record UploadedFile := {
  file_name : string;
  file_type : string;
  getvalue : bytes
}.

(** Values stored under a key of [st.session_state]. *)
Inductive entry :=
| VText (s : string)
| VFile (f : UploadedFile).

Abbreviation session_state := (gmap string entry).

(** Files of the working directory, by relative path. *)
Abbreviation filesystem := (gmap string bytes).

(** [img_payload = {'mime_type': ..., 'data': ...}] *)
Record img_payload := {
  mime_type : string;
  data : bytes
}.

(** An element of the list given to [model.generate_content]. *)
Inductive part :=
| PImage (p : img_payload)
| PText (s : string).

(** What [model.generate_content] gives back: a falsy object, a
    response whose [.text] is available, or a response whose [.text]
    accessor raises (a blocked candidate). *)
Inductive response :=
| RespFalsy
| RespText (t : string)
| RespNoText (cause : string).

Inductive call_result :=
| CallReturns (r : response)
| CallRaises (cause : string).

(** User-visible effects of one run, in program order. *)
Inductive event :=
| StWarning (msg : string)
| StSuccess (msg : string)
| StError (msg : string)
| StWrite (body : string)
| ModelCall (prompt_input : list part)
| StDownloadButton (label : string) (content : bytes) (name mime : string)
| QueryParamsClear.

(** How a block of the script ends: it runs to its end, or an exception
    leaves it. *)
Inductive status :=
| Completed
| Raised (e : string).

(** ** Constants of the script *)

Definition dq : string := String (Ascii.ascii_of_nat 34) EmptyString.
Definition nl : string := String (Ascii.ascii_of_nat 10) EmptyString.

Definition SYSTEM_PROMPT : string :=
  nl +:+
  "You are a domain expert in medical image analysis. You are tasked with " +:+ nl +:+
  "examining medical images for a renowned hospital. Your expertise will help in " +:+ nl +:+
  "identifying or discovering any anomalies, diseases, conditions, or health issues " +:+ nl +:+
  "that might be present in the image." +:+ nl +:+
  nl +:+
  "Your key responsibilities:" +:+ nl +:+
  "1. Detailed Analysis: Scrutinize and thoroughly examine each image, focusing on finding abnormalities." +:+ nl +:+
  "2. Analysis Report: Document findings and articulate them clearly in a structured format." +:+ nl +:+
  "3. Recommendations: Suggest remedies, tests, or treatments based on the analysis." +:+ nl +:+
  "4. Treatments: If applicable, lay out detailed treatments for faster recovery." +:+ nl +:+
  nl +:+
  "Important Notes:" +:+ nl +:+
  "1. Respond only if the image pertains to human health issues." +:+ nl +:+
  "2. If the image is unclear, note: 'Unable to be correctly determined based on the uploaded image.'" +:+ nl +:+
  "3. Disclaimer: Accompany your analysis with: " +:+ dq +:+
  "Consult with a Doctor before making any decisions." +:+ dq +:+ nl.

Definition report_content_key : string := "report_content".
Definition uploaded_image_key : string := "uploaded_image".

Definition img_path : string := "uploaded_image.jpg".
Definition doc_path : string := "AI_Medical_Report.docx".

Definition docx_mime : string :=
  "application/vnd.openxmlformats-officedocument.wordprocessingml.document".

(** ** Generate Report *)

(** [prompt_input = [img_payload, SYSTEM_PROMPT]] with
    [img_payload = {'mime_type': 'image/jpeg', 'data': img_data}]. *)
Definition prompt_input_of (uploaded_file : UploadedFile) : list part :=
  let img_data := getvalue uploaded_file in
  [PImage {| mime_type := "image/jpeg"; data := img_data |}; PText SYSTEM_PROMPT].

(** [if key not in st.session_state: st.session_state[key] = v] *)
Definition store_if_absent (key : string) (v : entry) (ss : session_state)
  : session_state :=
  match ss !! key with
  | Some _ => ss
  | None => <[key := v]> ss
  end.

(** The body of [if st.button('Generate Report'):].  The [try] block
    catches every exception of the model call and of [response.text],
    so the handler always runs to its end. *)
Definition generate_handler
    (uploaded_file : option UploadedFile)
    (generate_content : list part -> call_result)
    (ss : session_state) : session_state * list event :=
  match uploaded_file with
  | None =>
      (ss, [StWarning "Please upload an image before generating a report."])
  | Some f =>
      let prompt_input := prompt_input_of f in
      match generate_content prompt_input with
      | CallRaises e =>
          (ss, [ModelCall prompt_input;
                StError ("Error generating report: " +:+ e)])
      | CallReturns RespFalsy =>
          (ss, [ModelCall prompt_input;
                StError "Failed to generate a report. Please try again."])
      | CallReturns (RespNoText e) =>
          (ss, [ModelCall prompt_input;
                StSuccess "Report Generated Successfully!";
                StError ("Error generating report: " +:+ e)])
      | CallReturns (RespText report_text) =>
          let ss1 := store_if_absent report_content_key (VText report_text) ss in
          let ss2 := store_if_absent uploaded_image_key (VFile f) ss1 in
          (ss2, [ModelCall prompt_input;
                 StSuccess "Report Generated Successfully!";
                 StWrite report_text])
      end
  end.

(** ** Clear All *)

(** [del st.session_state[key]]: a [KeyError] when the key is absent. *)
Definition del_key (key : string) (ss : session_state) : status * session_state :=
  match ss !! key with
  | Some _ => (Completed, delete key ss)
  | None => (Raised ("KeyError: " +:+ key), ss)
  end.

(** [for key in keys: del st.session_state[key]] *)
Fixpoint del_keys (keys : list string) (ss : session_state)
  : status * session_state :=
  match keys with
  | [] => (Completed, ss)
  | key :: rest =>
      match del_key key ss with
      | (Completed, ss') => del_keys rest ss'
      | (Raised e, ss') => (Raised e, ss')
      end
  end.

(** [list(st.session_state.keys())] *)
Definition session_keys (ss : session_state) : list string :=
  (map_to_list ss).*1.

(** The body of [if clear_button:]. *)
Definition clear_handler (ss : session_state)
  : status * session_state * list event :=
  match del_keys (session_keys ss) ss with
  | (Completed, ss') => (Completed, ss', [QueryParamsClear])
  | (Raised e, ss') => (Raised e, ss', [])
  end.

(** ** Export as DOCX *)

(** The content of a python-docx [Document], in order of insertion. *)
Inductive block :=
| Heading (text : string) (level : nat)
| Picture (image : bytes) (width_inches : nat)
| Paragraph (text : string).

(** The calls of a run that the operating system, Pillow or python-docx
    can fail, in program order. *)
Inductive site :=
| SDisplayImage   (* st.image(uploaded_file, ...): decoding the upload *)
| SOpenImage      (* open(img_path, "wb") *)
| SWriteImage     (* img_file.write(...) *)
| SAddPicture     (* doc.add_picture(...) on the file's content *)
| SAddParagraph   (* doc.add_paragraph(...): text that XML cannot hold *)
| SSaveOpen       (* doc.save(doc_path): creating the file *)
| SSaveWrite      (* doc.save(doc_path): writing the archive *)
| SOpenDoc        (* open(doc_path, "rb") *)
| SDownload       (* st.download_button(...) *)
| SUnlinkImage    (* img_path.unlink() *)
| SUnlinkDoc.     (* doc_path.unlink() *)

(** What a run does not decide itself: the serializer of python-docx as
    it behaves during this run, the calls that fail and with which
    message, and how many bytes a failed write leaves in the file. *)
Record environment := {
  docx_bytes : list block -> bytes;
  fault : site -> option string;
  written : nat
}.

(** Local variables of the export block: the document being built and
    what it has shown so far. *)
Record export_frame := {
  doc : list block;
  shown : list event
}.

(** One statement of the export block, run on the shared directory. *)
Definition step : Type :=
  export_frame -> filesystem -> status * export_frame * filesystem.

(** [doc = Document()] *)
Definition step_new_document : step := fun fr fs =>
  (Completed, {| doc := []; shown := shown fr |}, fs).

(** [doc.add_heading('AI Medical Assistant Report', level=1)] *)
Definition step_add_heading : step := fun fr fs =>
  (Completed,
   {| doc := (doc fr ++ [Heading "AI Medical Assistant Report" 1])%list;
      shown := shown fr |}, fs).

(** [with open(img_path, "wb") as img_file:
        img_file.write(st.session_state.uploaded_image.getvalue())] *)
Definition step_write_image (env : environment) (ss : session_state) : step :=
  fun fr fs =>
  match fault env SOpenImage with
  | Some e => (Raised e, fr, fs)
  | None =>
      match ss !! uploaded_image_key with
      | Some (VFile f) =>
          match fault env SWriteImage with
          | Some e =>
              (Raised e, fr, <[img_path := take (written env) (getvalue f)]> fs)
          | None => (Completed, fr, <[img_path := getvalue f]> fs)
          end
      | Some (VText _) =>
          (Raised "AttributeError: 'str' object has no attribute 'getvalue'",
           fr, <[img_path := []]> fs)
      | None =>
          (Raised "AttributeError: st.session_state has no attribute uploaded_image",
           fr, <[img_path := []]> fs)
      end
  end.

(** [doc.add_picture(str(img_path), width=Inches(4))]: the picture is
    read back from the file. *)
Definition step_add_picture (env : environment) : step := fun fr fs =>
  match fs !! img_path with
  | None => (Raised "FileNotFoundError: uploaded_image.jpg", fr, fs)
  | Some image =>
      match fault env SAddPicture with
      | Some e => (Raised e, fr, fs)
      | None =>
          (Completed,
           {| doc := (doc fr ++ [Picture image 4])%list; shown := shown fr |}, fs)
      end
  end.

(** [doc.add_paragraph(st.session_state.report_content)] *)
Definition step_add_paragraph (env : environment) (ss : session_state)
  : step := fun fr fs =>
  match ss !! report_content_key with
  | Some (VText report_text) =>
      match fault env SAddParagraph with
      | Some e => (Raised e, fr, fs)
      | None =>
          (Completed,
           {| doc := (doc fr ++ [Paragraph report_text])%list;
              shown := shown fr |}, fs)
      end
  | Some (VFile _) =>
      (Raised "TypeError: report_content is not a string", fr, fs)
  | None =>
      (Raised "AttributeError: st.session_state has no attribute report_content",
       fr, fs)
  end.

(** [doc.save(doc_path)] *)
Definition step_save (env : environment) : step := fun fr fs =>
  match fault env SSaveOpen with
  | Some e => (Raised e, fr, fs)
  | None =>
      match fault env SSaveWrite with
      | Some e =>
          (Raised e, fr,
           <[doc_path := take (written env) (docx_bytes env (doc fr))]> fs)
      | None => (Completed, fr, <[doc_path := docx_bytes env (doc fr)]> fs)
      end
  end.

(** [with open(doc_path, "rb") as file: st.download_button(...)] *)
Definition step_download (env : environment) : step := fun fr fs =>
  match fs !! doc_path with
  | None => (Raised "FileNotFoundError: AI_Medical_Report.docx", fr, fs)
  | Some content =>
      match fault env SOpenDoc with
      | Some e => (Raised e, fr, fs)
      | None =>
          match fault env SDownload with
          | Some e => (Raised e, fr, fs)
          | None =>
              (Completed,
               {| doc := doc fr;
                  shown := (shown fr ++
                    [StDownloadButton "Download Report as DOCX" content
                       "AI_Medical_Report.docx" docx_mime])%list |}, fs)
          end
      end
  end.

(** [path.unlink()]: a [FileNotFoundError] when the file is not there. *)
Definition step_unlink (env : environment) (s : site) (path : string) : step :=
  fun fr fs =>
  match fs !! path with
  | None => (Raised ("FileNotFoundError: " +:+ path), fr, fs)
  | Some _ =>
      match fault env s with
      | Some e => (Raised e, fr, fs)
      | None => (Completed, fr, delete path fs)
      end
  end.

(** The statements of the [if] branch of the export block, in order. *)
Definition export_steps (env : environment) (ss : session_state) : list step :=
  [ step_new_document;
    step_add_heading;
    step_write_image env ss;
    step_add_picture env;
    step_add_paragraph env ss;
    step_save env;
    step_download env;
    step_unlink env SUnlinkImage img_path;
    step_unlink env SUnlinkDoc doc_path ].

(** Statements run in sequence; an exception skips the remaining ones. *)
Fixpoint run_steps (steps : list step) (fr : export_frame) (fs : filesystem)
  : status * export_frame * filesystem :=
  match steps with
  | [] => (Completed, fr, fs)
  | s :: rest =>
      match s fr fs with
      | (Completed, fr', fs') => run_steps rest fr' fs'
      | (Raised e, fr', fs') => (Raised e, fr', fs')
      end
  end.

Definition empty_frame : export_frame := {| doc := []; shown := [] |}.

(** The body of [if export_button:]. *)
Definition export_handler (env : environment) (ss : session_state)
    (fs : filesystem) : status * list event * filesystem :=
  match ss !! report_content_key, ss !! uploaded_image_key with
  | Some _, Some _ =>
      match run_steps (export_steps env ss) empty_frame fs with
      | (st, fr, fs') => (st, shown fr, fs')
      end
  | _, _ =>
      (Completed,
       [StWarning "No report available to export. Please generate a report first."],
       fs)
  end.

(** ** One run of the script *)

(** Widget values and external behaviour of one run. *)
Record inputs := {
  uploaded_file : option UploadedFile;
  generate_button : bool;
  export_button : bool;
  clear_button : bool;
  generate_content : list part -> call_result;
  env : environment
}.

(** What persists between runs: the session's dictionary and the
    working directory. *)
Record app_state := {
  session : session_state;
  files : filesystem
}.

(** [if uploaded_file: st.image(uploaded_file, width=200, ...)]: the
    preview decodes the upload, and raises when it cannot. *)
Definition display_uploaded (u : option UploadedFile) (e : environment)
  : status :=
  match u with
  | Some _ =>
      match fault e SDisplayImage with
      | Some cause => Raised cause
      | None => Completed
      end
  | None => Completed
  end.

(** The preview and the three blocks of the script in source order.  An
    exception that leaves the preview or the export block ends the run:
    the blocks after it are skipped. *)
Definition script (i : inputs) (s : app_state)
  : status * app_state * list event :=
  match display_uploaded (uploaded_file i) (env i) with
  | Raised e => (Raised e, s, [])
  | Completed =>
  let '(ss1, ev1) :=
    if generate_button i
    then generate_handler (uploaded_file i) (generate_content i) (session s)
    else (session s, []) in
  let '(st2, ev2, fs2) :=
    if export_button i
    then export_handler (env i) ss1 (files s)
    else (Completed, [], files s) in
  match st2 with
  | Raised e => (Raised e, {| session := ss1; files := fs2 |}, (ev1 ++ ev2)%list)
  | Completed =>
      if clear_button i
      then
        match clear_handler ss1 with
        | (st3, ss3, ev3) =>
            (st3, {| session := ss3; files := fs2 |}, (ev1 ++ ev2 ++ ev3)%list)
        end
      else (Completed, {| session := ss1; files := fs2 |}, (ev1 ++ ev2)%list)
  end
  end.

(** The state after the runs [rs], one after the other. *)
Fixpoint runs (rs : list inputs) (s : app_state) : app_state :=
  match rs with
  | [] => s
  | i :: rest => runs rest (script i s).1.2
  end.

(** ** Two sessions of one process *)

(** An export block in progress: its local variables, whether it is
    still running, and the statements it has not run yet. *)
Record export_run := {
  frame : export_frame;
  state : status;
  todo : list step
}.

Definition start_export (env : environment) (ss : session_state) : export_run :=
  {| frame := empty_frame; state := Completed; todo := export_steps env ss |}.

(** The run executes its next statement, if it has one and no exception
    has ended it. *)
Definition advance (r : export_run) (fs : filesystem)
  : export_run * filesystem :=
  match state r, todo r with
  | Completed, s :: rest =>
      match s (frame r) fs with
      | (st, fr, fs') => ({| frame := fr; state := st; todo := rest |}, fs')
      end
  | _, _ => (r, fs)
  end.

(** Two export blocks of different sessions on the same directory; the
    schedule says whose statement runs next ([true]: the first). *)
Fixpoint interleave (schedule : list bool) (a b : export_run)
    (fs : filesystem) : export_run * export_run * filesystem :=
  match schedule with
  | [] => (a, b, fs)
  | true :: rest =>
      match advance a fs with (a', fs') => interleave rest a' b fs' end
  | false :: rest =>
      match advance b fs with (b', fs') => interleave rest a b' fs' end
  end.

(** What a finished run shows to its user. *)
Definition outcome (r : export_run) : status * list event :=
  (state r, shown (frame r)).

(** ** Predicates used in the statements *)

(** The store holds the report [(report_text, image)]. *)
Definition holds_report (ss : session_state) (report_text : string)
    (image : UploadedFile) : Prop :=
  ss !! report_content_key = Some (VText report_text) /\
  ss !! uploaded_image_key = Some (VFile image).

(** The two keys of a report are both present or both absent. *)
Definition paired (ss : session_state) : Prop :=
  is_Some (ss !! report_content_key) <-> is_Some (ss !! uploaded_image_key).

(** The calls of the export block that can fail, in program order. *)
Definition call_sites : list site :=
  [SOpenImage; SWriteImage; SAddPicture; SAddParagraph; SSaveOpen; SSaveWrite;
   SOpenDoc; SDownload; SUnlinkImage; SUnlinkDoc].

Fixpoint first_fault_in (env : environment) (sites : list site)
  : option (site * string) :=
  match sites with
  | [] => None
  | s :: rest =>
      match fault env s with
      | Some e => Some (s, e)
      | None => first_fault_in env rest
      end
  end.

(** The first call of the export block, in program order, that fails. *)
Definition first_fault (env : environment) : option (site * string) :=
  first_fault_in env call_sites.

(** The calls that write the temporary image file or serialize the
    document. *)
Definition writes_or_serializes (s : site) : bool :=
  match s with
  | SOpenImage | SWriteImage | SSaveOpen | SSaveWrite => true
  | _ => false
  end.

(** The calls that come before the download button is shown. *)
Definition before_download (s : site) : bool :=
  match s with
  | SUnlinkImage | SUnlinkDoc => false
  | _ => true
  end.

(** States reachable from a fresh session by runs of the script. *)
Inductive reachable : app_state -> Prop :=
| reach_start (fs : filesystem) :
    reachable {| session := ∅; files := fs |}
| reach_run (i : inputs) (s : app_state) :
    reachable s -> reachable (script i s).1.2.

(** ** Sample inputs *)

(** The bytes of the two sample uploads stand for the content of an
    image file: no definition reads them, and whether Pillow or
    python-docx accepts a file is said by the environment of the run. *)

Definition scan_png : UploadedFile :=
  {| file_name := "scan.png"; file_type := "image/png";
     getvalue := [Byte.x89; Byte.x50; Byte.x4e; Byte.x47] |}.

Definition photo_jpg : UploadedFile :=
  {| file_name := "photo.jpg"; file_type := "image/jpeg";
     getvalue := [Byte.xff; Byte.xd8; Byte.xff; Byte.xe0] |}.

(** A model that answers every request with the text [t]. *)
Definition answers (t : string) : list part -> call_result :=
  fun _ => CallReturns (RespText t).

(** A stand-in serializer: the texts and the picture bytes, one after
    the other. *)
Definition plain_bytes (d : list block) : bytes :=
  flat_map (fun b => match b with
                     | Heading t _ => String.list_byte_of_string t
                     | Picture image _ => image
                     | Paragraph t => String.list_byte_of_string t
                     end) d.

(** An environment in which nothing fails. *)
Definition quiet : environment :=
  {| docx_bytes := plain_bytes; fault := fun _ => None; written := 0 |}.

(** An environment in which python-docx rejects the picture. *)
Definition rejects_picture : environment :=
  {| docx_bytes := plain_bytes;
     fault := fun s => match s with
                       | SAddPicture => Some "UnrecognizedImageError"
                       | _ => None
                       end;
     written := 0 |}.

(** An environment in which the disk fills up while the document is
    saved, two bytes into the file. *)
Definition disk_full_on_save : environment :=
  {| docx_bytes := plain_bytes;
     fault := fun s => match s with
                       | SSaveWrite => Some "OSError: No space left on device"
                       | _ => None
                       end;
     written := 2 |}.

Definition click_generate (f : option UploadedFile)
    (gc : list part -> call_result) : inputs :=
  {| uploaded_file := f; generate_button := true; export_button := false;
     clear_button := false; generate_content := gc; env := quiet |}.

Definition click_export (f : option UploadedFile) (e : environment) : inputs :=
  {| uploaded_file := f; generate_button := false; export_button := true;
     clear_button := false; generate_content := answers ""; env := e |}.

Definition fresh : app_state := {| session := ∅; files := ∅ |}.

(** The state after a first report for [scan.png] with text ["A"]. *)
Definition after_first : app_state :=
  (script (click_generate (Some scan_png) (answers "A")) fresh).1.2.

(** The state after a second, successful generate for [photo.jpg] with
    text ["B"]. *)
Definition after_second : app_state :=
  (script (click_generate (Some photo_jpg) (answers "B")) after_first).1.2.

(** A second session of the same process, whose report is for
    [photo.jpg] with text ["B"]. *)
Definition other_session : app_state :=
  (script (click_generate (Some photo_jpg) (answers "B")) fresh).1.2.

(** The document an export builds for the report [(t, image)]. *)
Definition report_document (t : string) (image : bytes) : list block :=
  [Heading "AI Medical Assistant Report" 1; Picture image 4; Paragraph t].

Definition download_of (content : bytes) : event :=
  StDownloadButton "Download Report as DOCX" content
    "AI_Medical_Report.docx" docx_mime.

(** The export block on a store that holds the report [(t, f)], written
    out call by call: where it stops, what it has shown and what is on
    disk at that point. *)
Definition ready_export (env : environment) (fs : filesystem) (t : string)
    (f : UploadedFile) : status * list event * filesystem :=
  let d := report_document t (getvalue f) in
  let fs1 : filesystem := <[img_path := getvalue f]> fs in
  let fs2 : filesystem := <[doc_path := docx_bytes env d]> fs1 in
  let ev := [download_of (docx_bytes env d)] in
  match fault env SOpenImage with Some e => (Raised e, [], fs) | None =>
  match fault env SWriteImage with
  | Some e => (Raised e, [], <[img_path := take (written env) (getvalue f)]> fs)
  | None =>
  match fault env SAddPicture with Some e => (Raised e, [], fs1) | None =>
  match fault env SAddParagraph with Some e => (Raised e, [], fs1) | None =>
  match fault env SSaveOpen with Some e => (Raised e, [], fs1) | None =>
  match fault env SSaveWrite with
  | Some e =>
      (Raised e, [], <[doc_path := take (written env) (docx_bytes env d)]> fs1)
  | None =>
  match fault env SOpenDoc with Some e => (Raised e, [], fs2) | None =>
  match fault env SDownload with Some e => (Raised e, [], fs2) | None =>
  match fault env SUnlinkImage with Some e => (Raised e, ev, fs2) | None =>
  match fault env SUnlinkDoc with
  | Some e => (Raised e, ev, delete img_path fs2)
  | None => (Completed, ev, delete doc_path (delete img_path fs2))
  end end end end end end end end end end.

(** ** Start of the script *)

(** What a whole run does besides what [script] shows: the two uses of
    the API key.  Page setup and the construction of the model object
    are display and configuration only and are left out. *)
Inductive app_event :=
| SetEnviron (name value : string)     (* os.environ[name] = value *)
| GenaiConfigure (api_key : string)    (* genai.configure(api_key=...) *)
| Shown (e : event).

(** A run is halted by [st.stop()], or goes through the three blocks. *)
Inductive run_end :=
| Stopped
| Ended (st : status).

(** The script from its first line: [GOOGLE_API_KEY] is what
    [os.getenv] returned.  [if not GOOGLE_API_KEY] holds for [None] and
    for the empty string. *)
Definition main (GOOGLE_API_KEY : option string) (i : inputs) (s : app_state)
  : run_end * app_state * list app_event :=
  match GOOGLE_API_KEY with
  | Some (String c rest) =>
      let key := String c rest in
      match script i s with
      | (st, s', evs) =>
          (Ended st, s',
           [SetEnviron "GOOGLE_API_KEY" key; GenaiConfigure key]
             ++ (Shown <$> evs))%list
      end
  | _ =>
      (Stopped, s,
       [Shown (StError
          "Google API Key not found. Please set 'GOOGLE_API_KEY' in the .env file.")])
  end.

(** A statement of the export block that leaves every file other than
    the two temporary ones as it is. *)
Definition keeps_other_files (st : step) : Prop :=
  forall fr (fs : filesystem) p,
    p <> img_path -> p <> doc_path -> (st fr fs).2 !! p = fs !! p.

(** A run in which only Generate Report is pressed. *)
Definition generate_run (u : option UploadedFile)
    (gc : list part -> call_result) (e : environment) : inputs :=
  {| uploaded_file := u; generate_button := true; export_button := false;
     clear_button := false; generate_content := gc; env := e |}.

(** A run in which only Export as DOCX is pressed. *)
Definition export_run_of (u : option UploadedFile)
    (gc : list part -> call_result) (e : environment) : inputs :=
  {| uploaded_file := u; generate_button := false; export_button := true;
     clear_button := false; generate_content := gc; env := e |}.

(** A run in which only Clear All is pressed. *)
Definition clear_run (u : option UploadedFile)
    (gc : list part -> call_result) (e : environment) : inputs :=
  {| uploaded_file := u; generate_button := false; export_button := false;
     clear_button := true; generate_content := gc; env := e |}.

(** The store that holds exactly the report [(t, f)]. *)
Definition report_store (t : string) (f : UploadedFile) : session_state :=
  <[uploaded_image_key := VFile f]> (<[report_content_key := VText t]> ∅).

(** A model whose call raises. *)
Definition unavailable (cause : string) : list part -> call_result :=
  fun _ => CallRaises cause.

(** An environment in which the image file cannot be opened for
    writing. *)
Definition read_only_directory : environment :=
  {| docx_bytes := plain_bytes;
     fault := fun s => match s with
                       | SOpenImage => Some "PermissionError: uploaded_image.jpg"
                       | _ => None
                       end;
     written := 0 |}.

(** An environment in which python-docx refuses the report text. *)
Definition paragraph_rejected : environment :=
  {| docx_bytes := plain_bytes;
     fault := fun s => match s with
                       | SAddParagraph =>
                           Some "ValueError: All strings must be XML compatible"
                       | _ => None
                       end;
     written := 0 |}.

(** An environment in which the uploaded file cannot be decoded for the
    preview. *)
Definition undecodable_upload : environment :=
  {| docx_bytes := plain_bytes;
     fault := fun s => match s with
                       | SDisplayImage => Some "UnidentifiedImageError"
                       | _ => None
                       end;
     written := 0 |}.

(** A directory with a file of its own next to a stale image file. *)
Definition busy_directory : filesystem :=
  <["notes.txt" := [Byte.x68; Byte.x69]]>
    (<[img_path := [Byte.x00]]> ∅).

(** ** The session store *)

Lemma store_if_absent_present key v (ss : session_state) :
  is_Some (ss !! key) -> store_if_absent key v ss = ss.
Proof. intros [w Hw]. unfold store_if_absent. by rewrite Hw. Qed.

Lemma store_if_absent_absent key v (ss : session_state) :
  ss !! key = None -> store_if_absent key v ss = <[key := v]> ss.
Proof. intros Hk. unfold store_if_absent. by rewrite Hk. Qed.

Lemma store_if_absent_other key key' v (ss : session_state) :
  key <> key' -> store_if_absent key v ss !! key' = ss !! key'.
Proof.
  intros Hne. unfold store_if_absent.
  destruct (ss !! key); [done | by rewrite lookup_insert_ne].
Qed.

Lemma store_if_absent_is_Some key v (ss : session_state) :
  is_Some (store_if_absent key v ss !! key).
Proof.
  unfold store_if_absent. destruct (ss !! key) eqn:Hk.
  - rewrite Hk. eauto.
  - rewrite lookup_insert_eq. eauto.
Qed.

Lemma report_keys_differ : report_content_key <> uploaded_image_key.
Proof. discriminate. Qed.

(** A generate that does not reach the two writes returns the store it
    was given; one that does, applies them. *)
Lemma generate_handler_session u gc (ss : session_state) :
  (generate_handler u gc ss).1 = ss \/
  exists f t,
    u = Some f /\ gc (prompt_input_of f) = CallReturns (RespText t) /\
    (generate_handler u gc ss).1 =
      store_if_absent uploaded_image_key (VFile f)
        (store_if_absent report_content_key (VText t) ss).
Proof.
  unfold generate_handler. destruct u as [f|]; [|by left].
  destruct (gc (prompt_input_of f)) as [[| t |c]|c] eqn:Hgc; try by left.
  right. by exists f, t.
Qed.

(** A store that already holds a report is not written by generate. *)
Lemma generate_keeps_stored_report u gc (ss : session_state) t f :
  holds_report ss t f -> (generate_handler u gc ss).1 = ss.
Proof.
  intros [Ht Hf].
  destruct (generate_handler_session u gc ss) as [H | (f' & t' & _ & _ & H)];
    [done|].
  rewrite H. rewrite (store_if_absent_present report_content_key); [|by eauto].
  rewrite store_if_absent_present; [done | by eauto].
Qed.

(** From a store without a report, a successful generate stores the
    response text and the uploaded file as they are. *)
Lemma generate_stores_report gc (ss : session_state) f t :
  ss !! report_content_key = None ->
  ss !! uploaded_image_key = None ->
  gc (prompt_input_of f) = CallReturns (RespText t) ->
  holds_report (generate_handler (Some f) gc ss).1 t f.
Proof.
  intros Hr Hu Hgc. unfold generate_handler. rewrite Hgc. cbn.
  rewrite (store_if_absent_absent report_content_key); [|done].
  rewrite store_if_absent_absent;
    [|by rewrite lookup_insert_ne; [|apply report_keys_differ]].
  split.
  - rewrite lookup_insert_ne; [|by intros ?; discriminate].
    by rewrite lookup_insert_eq.
  - by rewrite lookup_insert_eq.
Qed.

Lemma generate_paired u gc (ss : session_state) :
  paired ss -> paired (generate_handler u gc ss).1.
Proof.
  intros Hp.
  destruct (generate_handler_session u gc ss) as [H | (f & t & _ & _ & H)];
    rewrite H; [done|].
  split; intros _.
  - apply store_if_absent_is_Some.
  - rewrite store_if_absent_other; [|by intros ?; discriminate].
    apply store_if_absent_is_Some.
Qed.

(** ** Clearing *)

Lemma del_keys_lookup (keys : list string) : forall ss : session_state,
  NoDup keys ->
  (forall k, k ∈ keys -> is_Some (ss !! k)) ->
  exists ss' : session_state,
    del_keys keys ss = (Completed, ss') /\
    forall k, ss' !! k = if decide (k ∈ keys) then None else ss !! k.
Proof.
  induction keys as [|key rest IH]; intros ss Hnd Hin.
  - exists ss. split; [done|]. intros k.
    destruct (decide (k ∈ [])) as [Hk|]; [|done]. by apply elem_of_nil in Hk.
  - apply NoDup_cons in Hnd as [Hfresh Hnd].
    destruct (Hin key) as [v Hv]; [by left|].
    destruct (IH (delete key ss) Hnd) as (ss' & Hrun & Hlook).
    { intros k Hk. rewrite lookup_delete_ne; [|by intros ->].
      apply Hin. by right. }
    exists ss'. split.
    + cbn. unfold del_key. by rewrite Hv.
    + intros k. rewrite Hlook.
      destruct (decide (k = key)) as [->|Hne].
      * rewrite decide_False; [|done]. rewrite decide_True; [|by left].
        apply lookup_delete_eq.
      * destruct (decide (k ∈ rest)) as [Hk|Hk].
        -- rewrite decide_True; [done | by right].
        -- rewrite decide_False.
           ++ by rewrite lookup_delete_ne.
           ++ intros [?|?]%elem_of_cons; done.
Qed.

Lemma session_keys_spec (ss : session_state) k :
  k ∈ session_keys ss <-> is_Some (ss !! k).
Proof.
  unfold session_keys. rewrite list_elem_of_fmap. split.
  - intros ([k' v] & -> & Hin). apply elem_of_map_to_list in Hin. eauto.
  - intros [v Hv]. exists (k, v). split; [done|].
    by apply elem_of_map_to_list.
Qed.

Lemma clear_handler_empties (ss : session_state) :
  clear_handler ss = (Completed, ∅, [QueryParamsClear]).
Proof.
  unfold clear_handler.
  destruct (del_keys_lookup (session_keys ss) ss) as (ss' & Hrun & Hlook).
  - apply NoDup_fst_map_to_list.
  - intros k. apply session_keys_spec.
  - rewrite Hrun. replace ss' with (∅ : session_state); [done|].
    symmetry. apply map_empty. intros k. rewrite Hlook.
    destruct (decide (k ∈ session_keys ss)) as [|Hk]; [done|].
    destruct (ss !! k) eqn:Hv; [|done].
    exfalso. apply Hk, session_keys_spec. eauto.
Qed.

(** ** Exporting *)

Lemma export_handler_ready env (ss : session_state) (fs : filesystem) t f :
  holds_report ss t f ->
  export_handler env ss fs = ready_export env fs t f.
Proof.
  intros [Ht Hf]. unfold export_handler, ready_export. rewrite Ht, Hf.
  unfold export_steps, run_steps, step_new_document, step_add_heading,
    step_write_image, step_add_picture, step_add_paragraph, step_save,
    step_download, step_unlink, empty_frame, report_document, download_of.
  cbn [doc shown]. rewrite Ht, Hf.
  destruct (fault env SOpenImage); [done|].
  destruct (fault env SWriteImage); [done|].
  rewrite lookup_insert_eq.
  destruct (fault env SAddPicture); [done|].
  destruct (fault env SAddParagraph); [done|].
  destruct (fault env SSaveOpen); [done|].
  destruct (fault env SSaveWrite); [done|].
  rewrite lookup_insert_eq.
  destruct (fault env SOpenDoc); [done|].
  destruct (fault env SDownload); [done|].
  rewrite lookup_insert_ne by (intros ?; discriminate).
  rewrite lookup_insert_eq.
  destruct (fault env SUnlinkImage); [done|].
  rewrite lookup_delete_ne by discriminate.
  rewrite lookup_insert_eq.
  destruct (fault env SUnlinkDoc); done.
Qed.

(** The export block stops at the first call the environment fails, with
    that call's exception, and runs to its end when there is none. *)
Lemma ready_export_status env (fs : filesystem) t f :
  (ready_export env fs t f).1.1 =
  match first_fault env with
  | Some (_, e) => Raised e
  | None => Completed
  end.
Proof.
  unfold ready_export, first_fault, call_sites. cbn [first_fault_in].
  repeat (destruct (fault env _); [done|]). done.
Qed.

(** Before the download button nothing has been shown. *)
Lemma ready_export_silent env (fs : filesystem) t f s e :
  first_fault env = Some (s, e) ->
  before_download s = true ->
  (ready_export env fs t f).1.2 = [].
Proof.
  unfold ready_export, first_fault, call_sites. cbn [first_fault_in].
  intros Hff Hs.
  do 8 (destruct (fault env _); [done|]).
  exfalso.
  repeat (destruct (fault env _); [by simplify_eq|]).
  done.
Qed.

(** With no failing call, an export shows the download button for the
    session's own report and removes both files. *)
Lemma ready_export_no_fault env (fs : filesystem) t f :
  (forall s, fault env s = None) ->
  ready_export env fs t f =
    (Completed,
     [download_of (docx_bytes env (report_document t (getvalue f)))],
     delete doc_path (delete img_path fs)).
Proof.
  intros Hq. unfold ready_export. rewrite !Hq. f_equal.
  apply map_eq. intros p.
  destruct (decide (p = doc_path)) as [->|Hd].
  { by rewrite !lookup_delete_eq. }
  rewrite !(lookup_delete_ne _ doc_path) by done.
  destruct (decide (p = img_path)) as [->|Hi].
  { by rewrite !lookup_delete_eq. }
  rewrite !(lookup_delete_ne _ img_path) by done.
  rewrite lookup_insert_ne by done. by rewrite lookup_insert_ne.
Qed.

Lemma run_export_steps_no_fault env (ss : session_state) (fs : filesystem) t f :
  holds_report ss t f ->
  (forall s, fault env s = None) ->
  exists fr,
    run_steps (export_steps env ss) empty_frame fs =
      (Completed, fr, delete doc_path (delete img_path fs)) /\
    shown fr = [download_of (docx_bytes env (report_document t (getvalue f)))].
Proof.
  intros Hr Hq.
  pose proof (export_handler_ready env ss fs t f Hr) as He.
  rewrite ready_export_no_fault in He by done.
  destruct Hr as [Ht Hf]. unfold export_handler in He. rewrite Ht, Hf in He.
  destruct (run_steps (export_steps env ss) empty_frame fs) as [[st fr] fs'].
  exists fr. by simplify_eq.
Qed.

(** ** One run of the script *)

(** A run whose preview raises changes nothing. *)
Lemma script_not_displayed i s cause :
  display_uploaded (uploaded_file i) (env i) = Raised cause ->
  script i s = (Raised cause, s, []).
Proof. intros Hd. unfold script. by rewrite Hd. Qed.

Lemma display_uploaded_cases u e :
  display_uploaded u e = Completed \/
  exists cause, display_uploaded u e = Raised cause.
Proof. destruct (display_uploaded u e) as [|c]; [by left | right; by exists c]. Qed.

Lemma script_session i s :
  session (script i s).1.2 = session s \/
  (generate_button i = true /\
   session (script i s).1.2 =
     (generate_handler (uploaded_file i) (generate_content i) (session s)).1) \/
  session (script i s).1.2 = ∅.
Proof.
  destruct (display_uploaded_cases (uploaded_file i) (env i)) as [Hd | [c Hd]].
  - unfold script. rewrite Hd.
    destruct (generate_button i);
      [destruct (generate_handler _ _ _) as [ss1 ev1]|];
      (destruct (export_button i);
        [destruct (export_handler _ _ _) as [[[|e] ev2] fs2]|]);
      cbn; try (by left); try (by right; left);
      (destruct (clear_button i); [|first [by left | by right; left]]);
      rewrite clear_handler_empties; by right; right.
  - left. by rewrite (script_not_displayed _ _ c).
Qed.

Lemma paired_empty : paired ∅.
Proof. unfold paired. by rewrite !lookup_empty. Qed.

Lemma script_paired i s : paired (session s) -> paired (session (script i s).1.2).
Proof.
  intros Hp. destruct (script_session i s) as [-> | [[_ ->] | ->]].
  - done.
  - by apply generate_paired.
  - apply paired_empty.
Qed.

(** ** Two exports on one directory *)

(** A run that an exception has ended does nothing more. *)
Lemma advance_raised r (fs : filesystem) e :
  state r = Raised e -> advance r fs = (r, fs).
Proof. intros Hr. unfold advance. by rewrite Hr. Qed.

Lemma interleave_app l1 l2 a b (fs : filesystem) :
  interleave (l1 ++ l2) a b fs =
  match interleave l1 a b fs with
  | (a', b', fs') => interleave l2 a' b' fs'
  end.
Proof.
  revert a b fs. induction l1 as [|[|] l1 IH]; intros a b fs; [done|..];
    cbn [app interleave]; destruct (advance _ fs) as [r fs']; apply IH.
Qed.

(** A run that has no statement left does nothing more either. *)
Lemma advance_done r (fs : filesystem) :
  todo r = [] -> advance r fs = (r, fs).
Proof. intros Hr. unfold advance. rewrite Hr. by destruct (state r). Qed.

Lemma interleave_idle_first n a b (fs : filesystem) :
  (todo a = [] \/ exists e, state a = Raised e) ->
  interleave (replicate n true) a b fs = (a, b, fs).
Proof.
  intros Hidle. induction n as [|n IH]; [done|].
  cbn [replicate interleave].
  destruct Hidle as [Hd | [e He]];
    [rewrite advance_done by done | rewrite (advance_raised _ _ e) by done];
    apply IH.
Qed.

Lemma interleave_idle_second n a b (fs : filesystem) :
  (todo b = [] \/ exists e, state b = Raised e) ->
  interleave (replicate n false) a b fs = (a, b, fs).
Proof.
  intros Hidle. induction n as [|n IH]; [done|].
  cbn [replicate interleave].
  destruct Hidle as [Hd | [e He]];
    [rewrite advance_done by done | rewrite (advance_raised _ _ e) by done];
    apply IH.
Qed.

(** While only the first session is scheduled, its export block runs as
    it would alone, and the second one does not move; turns it is given
    after its last statement change nothing. *)
Lemma interleave_first_alone steps n : forall fr (fs : filesystem) b,
  exists rest,
    interleave (replicate (length steps + n) true)
      {| frame := fr; state := Completed; todo := steps |} b fs =
    ({| frame := (run_steps steps fr fs).1.2;
        state := (run_steps steps fr fs).1.1;
        todo := rest |}, b, (run_steps steps fr fs).2).
Proof.
  induction steps as [|s steps IH]; intros fr fs b.
  - exists []. cbn [length run_steps fst snd]. rewrite Nat.add_0_l.
    apply interleave_idle_first. by left.
  - cbn [length Nat.add replicate interleave run_steps]. unfold advance.
    cbn [state todo frame].
    destruct (s fr fs) as [[[|e] fr'] fs'].
    + apply IH.
    + exists steps. apply interleave_idle_first. right. by exists e.
Qed.

Lemma interleave_second_alone steps n : forall fr (fs : filesystem) a,
  exists rest,
    interleave (replicate (length steps + n) false) a
      {| frame := fr; state := Completed; todo := steps |} fs =
    (a, {| frame := (run_steps steps fr fs).1.2;
           state := (run_steps steps fr fs).1.1;
           todo := rest |}, (run_steps steps fr fs).2).
Proof.
  induction steps as [|s steps IH]; intros fr fs a.
  - exists []. cbn [length run_steps fst snd]. rewrite Nat.add_0_l.
    apply interleave_idle_second. by left.
  - cbn [length Nat.add replicate interleave run_steps]. unfold advance.
    cbn [state todo frame].
    destruct (s fr fs) as [[[|e] fr'] fs'].
    + apply IH.
    + exists steps. apply interleave_idle_second. right. by exists e.
Qed.

(** The first six statements of an export leave the session's image
    and document in the two files of fixed name. *)
Lemma export_steps_write_fixed_paths env (ss : session_state)
    (fs : filesystem) t f :
  holds_report ss t f ->
  (forall s, fault env s = None) ->
  (run_steps (take 6 (export_steps env ss)) empty_frame fs).2 =
    <[doc_path := docx_bytes env (report_document t (getvalue f))]>
      (<[img_path := getvalue f]> fs).
Proof.
  intros [Ht Hf] Hq.
  unfold export_steps, take, run_steps, step_new_document, step_add_heading,
    step_write_image, step_add_picture, step_add_paragraph, step_save,
    empty_frame, report_document.
  cbn [doc shown]. rewrite Ht, Hf, !Hq. by rewrite lookup_insert_eq.
Qed.

(** * The claims *)

(** ** Generate Report *)

(** C1.  A second successful generate does not overwrite the stored
    report.  After a report for [scan.png] with text ["A"], a generate
    for [photo.jpg] that the model answers with ["B"] shows ["B"] and
    reports success, and the store is the one it was before: it still
    holds ["A"] and [scan.png] (first write wins). *)
Theorem second_generate_keeps_first_text :
  holds_report (session after_first) "A" scan_png /\
  (script (click_generate (Some photo_jpg) (answers "B")) after_first).2 =
    [ModelCall (prompt_input_of photo_jpg);
     StSuccess "Report Generated Successfully!";
     StWrite "B"] /\
  session after_second !! report_content_key = Some (VText "A") /\
  session after_second = session after_first.
Proof. repeat split; vm_compute; reflexivity. Qed.

(** C5.  After a second successful generate the stored image is not the
    file that was uploaded for it: the store keeps the bytes of the
    first upload, and an export embeds those. *)
Theorem second_generate_keeps_first_image :
  session after_second !! uploaded_image_key = Some (VFile scan_png) /\
  getvalue scan_png <> getvalue photo_jpg /\
  (script (click_export (Some photo_jpg) quiet) after_second).2 =
    [download_of (plain_bytes (report_document "A" (getvalue scan_png)))].
Proof.
  split; [vm_compute; reflexivity|].
  split; [discriminate|]. vm_compute; reflexivity.
Qed.

(** C6.  Generate without an uploaded file shows the warning, does not
    call the model, and leaves the store and the directory as they
    were, whatever they held. *)
Theorem generate_without_upload
    (gc : list part -> call_result) (e : environment)
    (ss : session_state) (fs : filesystem) :
  script {| uploaded_file := None; generate_button := true;
            export_button := false; clear_button := false;
            generate_content := gc; env := e |}
         {| session := ss; files := fs |} =
  (Completed, {| session := ss; files := fs |},
   [StWarning "Please upload an image before generating a report."]).
Proof. reflexivity. Qed.

(** C10.  Whatever the name and type of the uploaded file, the request
    given to the model is the file's bytes declared as [image/jpeg]
    followed by the system prompt; the handler calls the model once,
    with that request. *)
Theorem request_declares_jpeg (name type : string) (content : bytes)
    (gc : list part -> call_result) (ss : session_state) :
  let f := {| file_name := name; file_type := type; getvalue := content |} in
  let request :=
    [PImage {| mime_type := "image/jpeg"; data := content |};
     PText SYSTEM_PROMPT] in
  prompt_input_of f = request /\
  (exists rest,
     (generate_handler (Some f) gc ss).2 = ModelCall request :: rest /\
     forall p, ModelCall p ∉ rest) /\
  generate_handler (Some f) gc ss =
    generate_handler (Some f) (fun _ => gc request) ss.
Proof.
  cbn zeta. split; [reflexivity|]. split; [|reflexivity].
  unfold generate_handler, prompt_input_of. cbn [getvalue].
  destruct (gc _) as [[| t | c] | c]; eexists; (split; [reflexivity|]);
    intros p Hp;
    repeat (apply elem_of_cons in Hp as [Hp|Hp]; [discriminate|]);
    by apply elem_of_nil in Hp.
Qed.

(** ** Export as DOCX *)

(** C2.  An export that fails after the image file is written leaves
    that file on disk.  With the report of [after_first] and a picture
    python-docx rejects, the exception leaves the block before the two
    [unlink] calls: [uploaded_image.jpg] remains. *)
Theorem export_failure_leaves_image_file :
  script (click_export (Some scan_png) rejects_picture) after_first =
  (Raised "UnrecognizedImageError",
   {| session := session after_first;
      files := {[ img_path := getvalue scan_png ]} |},
   []).
Proof. vm_compute. reflexivity. Qed.

(** C3, as stated, fails: when saving the document fails, the run ends
    with the exception itself, the script has shown no message of its
    own, and both files stay on disk, the document cut short. *)
Lemma export_save_failure_uncaught :
  let r := script (click_export (Some scan_png) disk_full_on_save) after_first in
  r.1.1 = Raised "OSError: No space left on device" /\
  r.2 = [] /\
  files r.1.2 !! img_path = Some (getvalue scan_png) /\
  files r.1.2 !! doc_path =
    Some (take 2 (plain_bytes (report_document "A" (getvalue scan_png)))).
Proof. repeat split; vm_compute; reflexivity. Qed.

(** C3, amended.  In a run that reaches the export block (the
    preview of the uploaded file, if any, did not raise), when the
    first call of the export to fail is the writing of the image file
    or the saving of the document, the export block does not catch the
    exception: the run ends with it, carrying the cause, before the
    script has shown anything and without running the clear block; the
    store is left as it was. *)
Theorem export_failure_propagates (u : option UploadedFile)
    (gc : list part -> call_result) (clear : bool) (e : environment)
    (ss : session_state) (fs : filesystem) t f s cause :
  holds_report ss t f ->
  display_uploaded u e = Completed ->
  first_fault e = Some (s, cause) ->
  writes_or_serializes s = true ->
  exists fs',
    script {| uploaded_file := u; generate_button := false;
              export_button := true; clear_button := clear;
              generate_content := gc; env := e |}
           {| session := ss; files := fs |} =
    (Raised cause, {| session := ss; files := fs' |}, []).
Proof.
  intros Hr Hd Hff Hs. unfold script.
  cbn [uploaded_file generate_button export_button clear_button env
       session files].
  rewrite Hd. rewrite (export_handler_ready _ _ _ _ _ Hr).
  pose proof (ready_export_status e fs t f) as Hst.
  pose proof (ready_export_silent e fs t f s cause Hff) as Hev.
  rewrite Hff in Hst.
  destruct (ready_export e fs t f) as [[st ev] fs'].
  cbn in Hst, Hev. subst st. rewrite Hev by (by destruct s).
  by exists fs'.
Qed.

Lemma export_failure_propagates_witness :
  holds_report (session after_first) "A" scan_png /\
  display_uploaded (Some scan_png) disk_full_on_save = Completed /\
  first_fault disk_full_on_save =
    Some (SSaveWrite, "OSError: No space left on device") /\
  writes_or_serializes SSaveWrite = true /\
  exists fs',
    script {| uploaded_file := Some scan_png; generate_button := false;
              export_button := true; clear_button := true;
              generate_content := answers ""; env := disk_full_on_save |}
           {| session := session after_first; files := ∅ |} =
    (Raised "OSError: No space left on device",
     {| session := session after_first; files := fs' |}, []).
Proof.
  assert (Hr : holds_report (session after_first) "A" scan_png)
    by (split; reflexivity).
  split; [exact Hr|]. split; [reflexivity|]. split; [reflexivity|].
  split; [reflexivity|].
  apply (export_failure_propagates (Some scan_png) (answers "") true
           disk_full_on_save (session after_first) ∅ "A" scan_png SSaveWrite
           "OSError: No space left on device" Hr);
    reflexivity.
Defined.

(** C7.  In a run that reaches the export block (the preview of the
    uploaded file, if any, did not raise), an export while the store
    holds no report shows the warning, ends normally, and leaves the
    store and the directory as they were: no file is written. *)
Theorem export_without_report (u : option UploadedFile)
    (gc : list part -> call_result) (e : environment)
    (ss : session_state) (fs : filesystem) :
  display_uploaded u e = Completed ->
  ss !! report_content_key = None \/ ss !! uploaded_image_key = None ->
  script {| uploaded_file := u; generate_button := false;
            export_button := true; clear_button := false;
            generate_content := gc; env := e |}
         {| session := ss; files := fs |} =
  (Completed, {| session := ss; files := fs |},
   [StWarning "No report available to export. Please generate a report first."]).
Proof.
  intros Hd Hno. unfold script, export_handler.
  cbn [uploaded_file generate_button export_button clear_button env
       session files].
  rewrite Hd. destruct Hno as [-> | Hu]; [done|]. rewrite Hu.
  by destruct (ss !! report_content_key).
Qed.

Lemma export_without_report_witness :
  display_uploaded (Some scan_png) disk_full_on_save = Completed /\
  ((∅ : session_state) !! report_content_key = None \/
   (∅ : session_state) !! uploaded_image_key = None) /\
  script (click_export (Some scan_png) disk_full_on_save) fresh =
  (Completed, fresh,
   [StWarning "No report available to export. Please generate a report first."]).
Proof.
  split; [reflexivity|]. split; [left; reflexivity|].
  apply (export_without_report (Some scan_png) (answers "")
           disk_full_on_save ∅ ∅); [reflexivity | left; reflexivity].
Defined.

(** C4, as stated, fails: two sessions exporting at the same time
    collide on [uploaded_image.jpg].  When the second session writes
    its image after the first one has written its own and before the
    first one reads it back, the first session's document embeds the
    second session's image, and the second session's export ends with
    a [FileNotFoundError] because the first one has removed the file. *)
Lemma concurrent_exports_collide :
  let schedule :=
    [true; true; true; false; false; false;
     true; true; true; true; true; true;
     false; false; false; false; false; false] in
  let r := interleave schedule
             (start_export quiet (session after_first))
             (start_export quiet (session other_session)) ∅ in
  holds_report (session after_first) "A" scan_png /\
  holds_report (session other_session) "B" photo_jpg /\
  outcome r.1.1 =
    (Completed,
     [download_of (plain_bytes (report_document "A" (getvalue photo_jpg)))]) /\
  outcome r.1.2 = (Raised "FileNotFoundError: uploaded_image.jpg", []) /\
  outcome r.1.1 <>
    ((export_handler quiet (session after_first) ∅).1.1,
     (export_handler quiet (session after_first) ∅).1.2).
Proof.
  cbn zeta. split; [split; reflexivity|]. split; [split; reflexivity|].
  split; [vm_compute; reflexivity|]. split; [vm_compute; reflexivity|].
  vm_compute. discriminate.
Qed.

(** C4, amended.  Every session's export writes its image and its
    document to the same two files of fixed name; the names are not
    unique to a session or a call, so exports that overlap can collide.
    Exports that do not overlap do not interfere: when one export block
    has run to its end before the other starts, in either order, and no
    call fails, each session is offered the document of its own report
    and both files are gone at the end. *)
Theorem sequential_exports_isolated (eA eB : environment)
    (ssA ssB : session_state) (fs : filesystem) tA fA tB fB
    (first : bool) (n m : nat) :
  holds_report ssA tA fA ->
  holds_report ssB tB fB ->
  (forall s, fault eA s = None) ->
  (forall s, fault eB s = None) ->
  (run_steps (take 6 (export_steps eA ssA)) empty_frame fs).2 =
    <[doc_path := docx_bytes eA (report_document tA (getvalue fA))]>
      (<[img_path := getvalue fA]> fs) /\
  (run_steps (take 6 (export_steps eB ssB)) empty_frame fs).2 =
    <[doc_path := docx_bytes eB (report_document tB (getvalue fB))]>
      (<[img_path := getvalue fB]> fs) /\
  exists a b,
    interleave (replicate (9 + n) first ++ replicate (9 + m) (negb first))
      (start_export eA ssA) (start_export eB ssB) fs =
      (a, b, delete doc_path (delete img_path fs)) /\
    outcome a =
      (Completed,
       [download_of (docx_bytes eA (report_document tA (getvalue fA)))]) /\
    outcome b =
      (Completed,
       [download_of (docx_bytes eB (report_document tB (getvalue fB)))]).
Proof.
  intros HA HB HqA HqB.
  split; [by apply export_steps_write_fixed_paths|].
  split; [by apply export_steps_write_fixed_paths|].
  assert (Hclean : forall fs0 : filesystem,
    delete doc_path (delete img_path (delete doc_path (delete img_path fs0)))
    = delete doc_path (delete img_path fs0)).
  { intros fs0. apply map_eq. intros p. rewrite !lookup_delete.
    by repeat case_decide. }
  rewrite interleave_app. unfold start_export. destruct first; cbn [negb].
  - destruct (interleave_first_alone (export_steps eA ssA) n empty_frame fs
                {| frame := empty_frame; state := Completed;
                   todo := export_steps eB ssB |}) as [restA HrunA].
    change (length (export_steps eA ssA)) with 9 in HrunA. rewrite HrunA.
    destruct (run_export_steps_no_fault eA ssA fs tA fA HA HqA)
      as (frA & -> & HshA).
    cbn [fst snd].
    destruct (interleave_second_alone (export_steps eB ssB) m empty_frame
                (delete doc_path (delete img_path fs))
                {| frame := frA; state := Completed; todo := restA |})
      as [restB HrunB].
    change (length (export_steps eB ssB)) with 9 in HrunB. rewrite HrunB.
    destruct (run_export_steps_no_fault eB ssB
                (delete doc_path (delete img_path fs)) tB fB HB HqB)
      as (frB & -> & HshB).
    cbn [fst snd]. eexists _, _. split; [by rewrite Hclean|].
    unfold outcome. cbn [state frame]. by rewrite HshA, HshB.
  - destruct (interleave_second_alone (export_steps eB ssB) n empty_frame fs
                {| frame := empty_frame; state := Completed;
                   todo := export_steps eA ssA |}) as [restB HrunB].
    change (length (export_steps eB ssB)) with 9 in HrunB. rewrite HrunB.
    destruct (run_export_steps_no_fault eB ssB fs tB fB HB HqB)
      as (frB & -> & HshB).
    cbn [fst snd].
    destruct (interleave_first_alone (export_steps eA ssA) m empty_frame
                (delete doc_path (delete img_path fs))
                {| frame := frB; state := Completed; todo := restB |})
      as [restA HrunA].
    change (length (export_steps eA ssA)) with 9 in HrunA. rewrite HrunA.
    destruct (run_export_steps_no_fault eA ssA
                (delete doc_path (delete img_path fs)) tA fA HA HqA)
      as (frA & -> & HshA).
    cbn [fst snd]. eexists _, _. split; [by rewrite Hclean|].
    unfold outcome. cbn [state frame]. by rewrite HshA, HshB.
Qed.

Lemma sequential_exports_isolated_witness :
  holds_report (session after_first) "A" scan_png /\
  holds_report (session other_session) "B" photo_jpg /\
  (forall s, fault quiet s = None) /\
  (exists a b,
    interleave (replicate 9 true ++ replicate 9 false)
      (start_export quiet (session after_first))
      (start_export quiet (session other_session)) ∅ =
      (a, b, delete doc_path (delete img_path ∅)) /\
    outcome a =
      (Completed,
       [download_of (plain_bytes (report_document "A" (getvalue scan_png)))]) /\
    outcome b =
      (Completed,
       [download_of (plain_bytes (report_document "B" (getvalue photo_jpg)))]))
  /\
  (exists a b,
    interleave (replicate 10 false ++ replicate 12 true)
      (start_export quiet (session after_first))
      (start_export quiet (session other_session)) ∅ =
      (a, b, delete doc_path (delete img_path ∅)) /\
    outcome a =
      (Completed,
       [download_of (plain_bytes (report_document "A" (getvalue scan_png)))]) /\
    outcome b =
      (Completed,
       [download_of (plain_bytes (report_document "B" (getvalue photo_jpg)))])).
Proof.
  assert (HA : holds_report (session after_first) "A" scan_png)
    by (split; reflexivity).
  assert (HB : holds_report (session other_session) "B" photo_jpg)
    by (split; reflexivity).
  assert (Hq : forall s, fault quiet s = None) by reflexivity.
  split; [exact HA|]. split; [exact HB|]. split; [exact Hq|]. split.
  - exact (proj2 (proj2 (sequential_exports_isolated quiet quiet
                           (session after_first) (session other_session) ∅
                           "A" scan_png "B" photo_jpg true 0 0 HA HB Hq Hq))).
  - exact (proj2 (proj2 (sequential_exports_isolated quiet quiet
                           (session after_first) (session other_session) ∅
                           "A" scan_png "B" photo_jpg false 1 3 HA HB Hq Hq))).
Defined.

(** ** Clear All *)

(** C8.  In a run that reaches the clear block (the preview of the
    uploaded file, if any, did not raise), whatever the store holds, a
    clear ends normally with an empty store; clearing again, or
    clearing an empty store, gives the same result and raises no
    error. *)
Theorem clear_resets_and_is_idempotent (u : option UploadedFile)
    (gc : list part -> call_result) (e : environment)
    (ss : session_state) (fs : filesystem) :
  display_uploaded u e = Completed ->
  let clear := {| uploaded_file := u; generate_button := false;
                  export_button := false; clear_button := true;
                  generate_content := gc; env := e |} in
  let cleared := (Completed, {| session := ∅; files := fs |},
                  [QueryParamsClear]) in
  script clear {| session := ss; files := fs |} = cleared /\
  script clear (script clear {| session := ss; files := fs |}).1.2 = cleared /\
  script clear {| session := ∅; files := fs |} = cleared.
Proof.
  intros Hd. cbn zeta.
  assert (Hclear : forall ss' : session_state,
    script {| uploaded_file := u; generate_button := false;
              export_button := false; clear_button := true;
              generate_content := gc; env := e |}
           {| session := ss'; files := fs |} =
    (Completed, {| session := ∅; files := fs |}, [QueryParamsClear])).
  { intros ss'. unfold script.
    cbn [uploaded_file generate_button export_button clear_button env
         session files].
    rewrite Hd. by rewrite clear_handler_empties. }
  split; [apply Hclear|]. split; [|apply Hclear].
  rewrite (Hclear ss). apply Hclear.
Qed.

Lemma clear_resets_and_is_idempotent_witness :
  display_uploaded (Some photo_jpg) quiet = Completed /\
  let clear := {| uploaded_file := Some photo_jpg; generate_button := false;
                  export_button := false; clear_button := true;
                  generate_content := answers ""; env := quiet |} in
  let cleared := (Completed, {| session := ∅; files := ∅ |},
                  [QueryParamsClear]) in
  script clear {| session := session after_first; files := ∅ |} = cleared /\
  script clear
    (script clear {| session := session after_first; files := ∅ |}).1.2
    = cleared /\
  script clear {| session := ∅; files := ∅ |} = cleared.
Proof.
  assert (Hd : display_uploaded (Some photo_jpg) quiet = Completed)
    by reflexivity.
  split; [exact Hd|].
  exact (clear_resets_and_is_idempotent (Some photo_jpg) (answers "") quiet
           (session after_first) ∅ Hd).
Defined.

(** ** The store across runs *)

(** C9.  Every run of the script, whatever buttons are pressed and
    whatever the model and the environment do, takes a store in which
    the report text and the image are both present or both absent to
    such a store; so no state reachable from a fresh session has one
    of the two keys without the other. *)
Theorem report_keys_paired :
  (forall i s, paired (session s) -> paired (session (script i s).1.2)) /\
  (forall s, reachable s -> paired (session s)).
Proof.
  split; [apply script_paired|].
  intros s Hs. induction Hs as [fs | i s _ IH].
  - apply paired_empty.
  - by apply script_paired.
Qed.

Lemma report_keys_paired_witness :
  paired (session after_first) /\
  paired (session (script (click_generate (Some photo_jpg) (answers "B"))
                     after_first).1.2).
Proof.
  assert (Hp : paired (session after_first))
    by (split; intros _; eexists; reflexivity).
  split; [exact Hp|].
  exact (proj1 report_keys_paired
           (click_generate (Some photo_jpg) (answers "B")) after_first Hp).
Defined.

(** * Further properties of the script *)

(** ** Generate Report: failures and what a generate may write *)

(** X1.  In a run in which the preview of the uploaded file did not
    raise, when the model gives no report text for the file (the call
    raises, the response is falsy, or its text cannot be read), the
    generate run still ends normally: the model was called once, the
    last thing shown is an error message, and the store and the
    directory are as before. *)
Theorem generate_failure_keeps_state (f : UploadedFile)
    (gc : list part -> call_result) (e : environment)
    (ss : session_state) (fs : filesystem) :
  fault e SDisplayImage = None ->
  (forall t, gc (prompt_input_of f) <> CallReturns (RespText t)) ->
  exists before msg,
    script (generate_run (Some f) gc e) {| session := ss; files := fs |} =
    (Completed, {| session := ss; files := fs |},
     (ModelCall (prompt_input_of f) :: before ++ [StError msg])%list) /\
    forall p, ModelCall p ∉ before.
Proof.
  intros Hd Hno.
  unfold script, generate_run, display_uploaded, generate_handler.
  cbn [generate_button export_button clear_button uploaded_file
       generate_content env session files].
  rewrite Hd.
  destruct (gc (prompt_input_of f)) as [[| t | c] | c].
  - exists [], "Failed to generate a report. Please try again.".
    split; [done|]. intros p Hp. by apply elem_of_nil in Hp.
  - by destruct (Hno t).
  - exists [StSuccess "Report Generated Successfully!"],
      ("Error generating report: " +:+ c).
    split; [done|]. intros p Hp.
    apply elem_of_cons in Hp as [Hp|Hp]; [discriminate|].
    by apply elem_of_nil in Hp.
  - exists [], ("Error generating report: " +:+ c).
    split; [done|]. intros p Hp. by apply elem_of_nil in Hp.
Qed.

Lemma generate_failure_keeps_state_witness :
  fault quiet SDisplayImage = None /\
  (forall t, unavailable "429 quota exceeded" (prompt_input_of scan_png)
             <> CallReturns (RespText t)) /\
  exists before msg,
    script (generate_run (Some scan_png) (unavailable "429 quota exceeded") quiet)
           after_first =
    (Completed, after_first,
     (ModelCall (prompt_input_of scan_png) :: before ++ [StError msg])%list) /\
    forall p, ModelCall p ∉ before.
Proof.
  assert (Hd : fault quiet SDisplayImage = None) by reflexivity.
  assert (Hno : forall t, unavailable "429 quota exceeded"
                            (prompt_input_of scan_png)
                          <> CallReturns (RespText t)) by discriminate.
  split; [exact Hd|]. split; [exact Hno|].
  exact (generate_failure_keeps_state scan_png
           (unavailable "429 quota exceeded") quiet
           (session after_first) (files after_first) Hd Hno).
Defined.

(** X2.  A generate never changes or removes an entry the store
    already has, whatever the upload and the model's answer: every key
    present before is present afterwards with the same value. *)
Theorem generate_keeps_entries (u : option UploadedFile)
    (gc : list part -> call_result) (ss : session_state) k v :
  ss !! k = Some v ->
  (generate_handler u gc ss).1 !! k = Some v.
Proof.
  intros Hk.
  destruct (generate_handler_session u gc ss) as [-> | (f & t & _ & _ & ->)];
    [done|].
  assert (Hstep : forall key w (m : session_state),
            m !! k = Some v -> store_if_absent key w m !! k = Some v).
  { intros key w m Hm. unfold store_if_absent.
    destruct (m !! key) eqn:Hkey; [done|].
    rewrite lookup_insert_ne; [done | by intros ->; congruence]. }
  by apply Hstep, Hstep.
Qed.

Lemma generate_keeps_entries_witness :
  session after_first !! report_content_key = Some (VText "A") /\
  (generate_handler (Some photo_jpg) (answers "B") (session after_first)).1
    !! report_content_key = Some (VText "A").
Proof.
  assert (Hk : session after_first !! report_content_key = Some (VText "A"))
    by reflexivity.
  split; [exact Hk|].
  exact (generate_keeps_entries (Some photo_jpg) (answers "B")
           (session after_first) report_content_key (VText "A") Hk).
Defined.

(** X3.  A generate writes no key other than [report_content] and
    [uploaded_image]: every other key of the store is as before. *)
Theorem generate_writes_report_keys_only (u : option UploadedFile)
    (gc : list part -> call_result) (ss : session_state) k :
  k <> report_content_key ->
  k <> uploaded_image_key ->
  (generate_handler u gc ss).1 !! k = ss !! k.
Proof.
  intros Hr Hu.
  destruct (generate_handler_session u gc ss) as [-> | (f & t & _ & _ & ->)];
    [done|].
  rewrite store_if_absent_other by done.
  by rewrite store_if_absent_other.
Qed.

Lemma generate_writes_report_keys_only_witness :
  "theme" <> report_content_key /\
  "theme" <> uploaded_image_key /\
  (generate_handler (Some scan_png) (answers "A") {[ "theme" := VText "dark" ]}).1
    !! "theme" =
  ({[ "theme" := VText "dark" ]} : session_state) !! "theme".
Proof.
  assert (Hr : "theme" <> report_content_key) by discriminate.
  assert (Hu : "theme" <> uploaded_image_key) by discriminate.
  split; [exact Hr|]. split; [exact Hu|].
  exact (generate_writes_report_keys_only (Some scan_png) (answers "A")
           {[ "theme" := VText "dark" ]} "theme" Hr Hu).
Defined.

(** ** The store across runs, in full *)

Lemma generate_on_empty_or_report u gc (ss : session_state) :
  (ss = ∅ \/ exists t f, ss = report_store t f) ->
  (generate_handler u gc ss).1 = ss \/
  exists f t,
    ss = ∅ /\ u = Some f /\
    gc (prompt_input_of f) = CallReturns (RespText t) /\
    (generate_handler u gc ss).1 = report_store t f.
Proof.
  intros Hshape.
  destruct (generate_handler_session u gc ss) as [H | (f & t & Hu & Hgc & H)];
    [by left|].
  destruct Hshape as [-> | (t0 & f0 & ->)].
  - right. exists f, t. by rewrite H.
  - left. rewrite H.
    rewrite (store_if_absent_present report_content_key) by (by eexists).
    by rewrite store_if_absent_present by (by eexists).
Qed.

Lemma script_store_shape i s :
  (session s = ∅ \/ exists t f, session s = report_store t f) ->
  session (script i s).1.2 = ∅ \/
  exists t f, session (script i s).1.2 = report_store t f.
Proof.
  intros Hshape. destruct (script_session i s) as [-> | [[_ ->] | ->]];
    [done| |by left].
  destruct (generate_on_empty_or_report (uploaded_file i) (generate_content i)
              (session s) Hshape) as [-> | (f & t & _ & _ & _ & ->)];
    [done|]. right. by exists t, f.
Qed.

Lemma reachable_shape s :
  reachable s -> session s = ∅ \/ exists t f, session s = report_store t f.
Proof.
  induction 1 as [fs | i s _ IH]; [by left|]. by apply script_store_shape.
Qed.

Lemma report_store_holds t f : holds_report (report_store t f) t f.
Proof. split; reflexivity. Qed.

Lemma report_store_inj t f t' f' :
  holds_report (report_store t f) t' f' -> t' = t /\ f' = f.
Proof. intros [Ht Hf]. unfold report_store in *. by simplify_map_eq. Qed.

(** X4.  In every state reachable from a fresh session the store is
    empty or consists of exactly one report: a text under
    [report_content], an uploaded file under [uploaded_image], and no
    other key. *)
Theorem reachable_store_is_empty_or_report (s : app_state) :
  reachable s ->
  session s = ∅ \/
  exists t f, session s = report_store t f /\ holds_report (session s) t f /\
              session_keys (session s) ≡ₚ [report_content_key; uploaded_image_key].
Proof.
  intros Hs. destruct (reachable_shape s Hs) as [-> | (t & f & Heq)];
    [by left|].
  right. exists t, f. rewrite Heq. split; [done|].
  split; [apply report_store_holds|].
  unfold session_keys, report_store.
  rewrite map_to_list_insert by done.
  rewrite map_to_list_insert by done.
  rewrite map_to_list_empty. cbn. apply Permutation_swap.
Qed.

Lemma reachable_store_is_empty_or_report_witness :
  reachable after_first /\
  (session after_first = ∅ \/
   exists t f, session after_first = report_store t f /\
               holds_report (session after_first) t f /\
               session_keys (session after_first)
                 ≡ₚ [report_content_key; uploaded_image_key]).
Proof.
  assert (Hr : reachable after_first)
    by exact (reach_run (click_generate (Some scan_png) (answers "A")) fresh
                (reach_start ∅)).
  split; [exact Hr|].
  exact (reachable_store_is_empty_or_report after_first Hr).
Defined.

Lemma runs_app rs1 rs2 s : runs (rs1 ++ rs2) s = runs rs2 (runs rs1 s).
Proof.
  revert s. induction rs1 as [|i rs1 IH]; intros s; [done|].
  cbn [app runs]. apply IH.
Qed.

Lemma runs_shape rs : forall s,
  (session s = ∅ \/ exists t f, session s = report_store t f) ->
  session (runs rs s) = ∅ \/ exists t f, session (runs rs s) = report_store t f.
Proof.
  induction rs as [|i rs IH]; intros s Hs; [done|].
  cbn [runs]. by apply IH, script_store_shape.
Qed.

(** X5.  The text and the image of a stored report come from one and
    the same generate of the session's history.  Whenever a session
    that started with an empty store holds the report [(t, f)] after
    the runs [rs], one of these runs, starting from an empty store, had
    Generate Report pressed with [f] uploaded and was answered [t] by
    the model, and after that run and after every later one the store
    was exactly that report. *)
Theorem stored_report_from_one_generate (rs : list inputs) (s0 : app_state)
    t f :
  session s0 = ∅ ->
  holds_report (session (runs rs s0)) t f ->
  exists before i after,
    rs = (before ++ i :: after)%list /\
    session (runs before s0) = ∅ /\
    generate_button i = true /\
    uploaded_file i = Some f /\
    generate_content i (prompt_input_of f) = CallReturns (RespText t) /\
    forall k,
      session (runs (before ++ i :: take k after) s0) = report_store t f.
Proof.
  intros Hs0. revert t f. induction rs as [|j rs' IH] using rev_ind;
    intros t f Hh.
  { destruct Hh as [Hh _]. cbn [runs] in Hh. rewrite Hs0 in Hh.
    by rewrite lookup_empty in Hh. }
  rewrite runs_app in Hh. cbn [runs] in Hh.
  assert (Hshape : session (runs rs' s0) = ∅ \/
                   exists t f, session (runs rs' s0) = report_store t f)
    by (apply runs_shape; by left).
  assert (Hkeep : session (script j (runs rs' s0)).1.2 = session (runs rs' s0) ->
    exists before i after,
      (rs' ++ [j])%list = (before ++ i :: after)%list /\
      session (runs before s0) = ∅ /\
      generate_button i = true /\
      uploaded_file i = Some f /\
      generate_content i (prompt_input_of f) = CallReturns (RespText t) /\
      forall k,
        session (runs (before ++ i :: take k after) s0) = report_store t f).
  { intros Heq. rewrite Heq in Hh.
    destruct (IH t f Hh) as (before & i & after & -> & Hb & Hg & Hu & Hgc & Hk).
    exists before, i, (after ++ [j])%list.
    split; [by rewrite <- app_assoc|]. do 4 (split; [done|]).
    intros k. destruct (decide (k <= length after)) as [Hle | Hgt].
    - rewrite take_app_le by done. apply Hk.
    - rewrite take_ge by (rewrite length_app; cbn; lia).
      rewrite app_comm_cons, app_assoc, runs_app. cbn [runs]. rewrite Heq.
      specialize (Hk (length after)). by rewrite take_ge in Hk by done. }
  destruct (script_session j (runs rs' s0)) as [Heq | [[Hg Heq] | Heq]].
  - by apply Hkeep.
  - destruct (generate_on_empty_or_report (uploaded_file j)
                (generate_content j) (session (runs rs' s0)) Hshape)
      as [Hsame | (f' & t' & Hempty & Hu & Hgc & Hnew)].
    + apply Hkeep. by rewrite Heq.
    + rewrite Heq, Hnew in Hh. apply report_store_inj in Hh as [-> ->].
      exists rs', j, []. do 5 (split; [done|]).
      intros k. rewrite take_nil, runs_app. cbn [runs]. by rewrite Heq.
  - rewrite Heq in Hh. destruct Hh as [Hh _]. by rewrite lookup_empty in Hh.
Qed.

Lemma stored_report_from_one_generate_witness :
  session fresh = ∅ /\
  holds_report
    (session (runs [click_generate (Some scan_png) (answers "A");
                    click_export (Some scan_png) quiet;
                    click_generate (Some photo_jpg) (answers "B")] fresh))
    "A" scan_png /\
  exists before i after,
    [click_generate (Some scan_png) (answers "A");
     click_export (Some scan_png) quiet;
     click_generate (Some photo_jpg) (answers "B")]
      = (before ++ i :: after)%list /\
    session (runs before fresh) = ∅ /\
    generate_button i = true /\
    uploaded_file i = Some scan_png /\
    generate_content i (prompt_input_of scan_png)
      = CallReturns (RespText "A") /\
    forall k,
      session (runs (before ++ i :: take k after) fresh)
        = report_store "A" scan_png.
Proof.
  assert (Hs0 : session fresh = ∅) by reflexivity.
  assert (Hh : holds_report
    (session (runs [click_generate (Some scan_png) (answers "A");
                    click_export (Some scan_png) quiet;
                    click_generate (Some photo_jpg) (answers "B")] fresh))
    "A" scan_png) by (split; vm_compute; reflexivity).
  split; [exact Hs0|]. split; [exact Hh|].
  exact (stored_report_from_one_generate
           [click_generate (Some scan_png) (answers "A");
            click_export (Some scan_png) quiet;
            click_generate (Some photo_jpg) (answers "B")]
           fresh "A" scan_png Hs0 Hh).
Defined.

(** ** Export as DOCX: the files it touches and how it ends *)

Lemma export_steps_keep_other_files env (ss : session_state) :
  Forall keeps_other_files (export_steps env ss).
Proof.
  unfold export_steps.
  repeat apply Forall_cons_2; [..|apply Forall_nil_2];
    intros fr fs p Hi Hd;
    unfold step_new_document, step_add_heading, step_write_image,
      step_add_picture, step_add_paragraph, step_save, step_download,
      step_unlink;
    repeat case_match; cbn [snd];
    rewrite ?lookup_insert_ne, ?lookup_delete_ne by done; done.
Qed.

Lemma run_steps_keep_other_files steps :
  Forall keeps_other_files steps ->
  forall fr (fs : filesystem) p,
    p <> img_path -> p <> doc_path ->
    (run_steps steps fr fs).2 !! p = fs !! p.
Proof.
  induction 1 as [|s steps Hs _ IH]; intros fr fs p Hi Hd; [done|].
  cbn [run_steps]. specialize (Hs fr fs p Hi Hd).
  destruct (s fr fs) as [[[|e] fr'] fs']; cbn [snd] in *; [|done].
  by rewrite IH.
Qed.

Lemma export_handler_keeps_other_files env (ss : session_state)
    (fs : filesystem) p :
  p <> img_path -> p <> doc_path ->
  (export_handler env ss fs).2 !! p = fs !! p.
Proof.
  intros Hi Hd. unfold export_handler.
  destruct (ss !! report_content_key), (ss !! uploaded_image_key); try done.
  pose proof (run_steps_keep_other_files _ (export_steps_keep_other_files env ss)
                empty_frame fs p Hi Hd) as Hrun.
  by destruct (run_steps _ _ _) as [[st fr] fs'].
Qed.

(** X6.  No run of the script, whatever is pressed and whatever fails,
    creates, changes or removes a file other than [uploaded_image.jpg]
    and [AI_Medical_Report.docx]. *)
Theorem script_keeps_other_files (i : inputs) (s : app_state) p :
  p <> img_path ->
  p <> doc_path ->
  files (script i s).1.2 !! p = files s !! p.
Proof.
  intros Hi Hd.
  destruct (display_uploaded_cases (uploaded_file i) (env i)) as [Hs | [c Hs]];
    [|by rewrite (script_not_displayed _ _ c)].
  unfold script. rewrite Hs.
  destruct (if generate_button i then _ else _) as [ss1 ev1].
  destruct (export_button i).
  - pose proof (export_handler_keeps_other_files (env i) ss1 (files s) p Hi Hd)
      as Hexp.
    destruct (export_handler _ _ _) as [[[|e] ev2] fs2]; cbn [snd] in Hexp;
      [|done].
    destruct (clear_button i); [|done].
    by destruct (clear_handler ss1) as [[st3 ss3] ev3].
  - destruct (clear_button i); [|done].
    by destruct (clear_handler ss1) as [[st3 ss3] ev3].
Qed.

Lemma script_keeps_other_files_witness :
  "notes.txt" <> img_path /\ "notes.txt" <> doc_path /\
  files (script (export_run_of None (answers "") disk_full_on_save)
           {| session := session after_first; files := busy_directory |}).1.2
    !! "notes.txt" =
  busy_directory !! "notes.txt".
Proof.
  assert (Hi : "notes.txt" <> img_path) by discriminate.
  assert (Hd : "notes.txt" <> doc_path) by discriminate.
  split; [exact Hi|]. split; [exact Hd|].
  exact (script_keeps_other_files
           (export_run_of None (answers "") disk_full_on_save)
           {| session := session after_first; files := busy_directory |}
           "notes.txt" Hi Hd).
Defined.

Lemma display_uploaded_quiet u e :
  (forall s, fault e s = None) -> display_uploaded u e = Completed.
Proof. intros Hq. unfold display_uploaded. destruct u; by rewrite ?Hq. Qed.

Lemma script_export_ready u gc e (ss : session_state) (fs : filesystem) t f :
  display_uploaded u e = Completed ->
  holds_report ss t f ->
  script (export_run_of u gc e) {| session := ss; files := fs |} =
  ((ready_export e fs t f).1.1,
   {| session := ss; files := (ready_export e fs t f).2 |},
   (ready_export e fs t f).1.2).
Proof.
  intros Hd Hr. unfold script, export_run_of.
  cbn [uploaded_file generate_button export_button clear_button env
       session files].
  rewrite Hd. rewrite (export_handler_ready _ _ _ _ _ Hr).
  by destruct (ready_export e fs t f) as [[[|c] ev] fs'].
Qed.

(** X7.  When no call fails, an export of a stored report ends
    normally, offers the document built from that report as this run
    serializes it, leaves the store as it was and leaves neither
    temporary file behind, also when files of those names were there
    before.  Exporting again, in a run in which again nothing fails,
    offers the same document as that run serializes it and leaves the
    same state. *)
Theorem export_success_repeatable (u u' : option UploadedFile)
    (gc gc' : list part -> call_result) (e e' : environment)
    (ss : session_state) (fs : filesystem) t f :
  holds_report ss t f ->
  (forall s, fault e s = None) ->
  (forall s, fault e' s = None) ->
  let r := script (export_run_of u gc e) {| session := ss; files := fs |} in
  r = (Completed,
       {| session := ss; files := delete doc_path (delete img_path fs) |},
       [download_of (docx_bytes e (report_document t (getvalue f)))]) /\
  files r.1.2 !! img_path = None /\
  files r.1.2 !! doc_path = None /\
  script (export_run_of u' gc' e') r.1.2 =
    (Completed, r.1.2,
     [download_of (docx_bytes e' (report_document t (getvalue f)))]).
Proof.
  intros Hr Hq Hq'. cbn zeta.
  assert (Hrun : forall v g x (fs0 : filesystem),
    (forall s, fault x s = None) ->
    script (export_run_of v g x) {| session := ss; files := fs0 |} =
    (Completed,
     {| session := ss; files := delete doc_path (delete img_path fs0) |},
     [download_of (docx_bytes x (report_document t (getvalue f)))])).
  { intros v g x fs0 Hx.
    rewrite (script_export_ready _ _ _ _ _ _ _
               (display_uploaded_quiet v x Hx) Hr).
    by rewrite ready_export_no_fault. }
  rewrite !(Hrun u gc e fs Hq). cbn [fst snd files]. split; [done|].
  split; [by rewrite lookup_delete_ne, lookup_delete_eq|].
  split; [by rewrite lookup_delete_eq|].
  rewrite (Hrun u' gc' e' _ Hq'). do 2 f_equal. f_equal.
  apply map_eq. intros p. rewrite !lookup_delete. by repeat case_decide.
Qed.

Lemma export_success_repeatable_witness :
  holds_report (session after_first) "A" scan_png /\
  (forall s, fault quiet s = None) /\
  let r := script (export_run_of (Some scan_png) (answers "") quiet)
             {| session := session after_first; files := busy_directory |} in
  r = (Completed,
       {| session := session after_first;
          files := delete doc_path (delete img_path busy_directory) |},
       [download_of (plain_bytes (report_document "A" (getvalue scan_png)))]) /\
  files r.1.2 !! img_path = None /\
  files r.1.2 !! doc_path = None /\
  script (export_run_of None (answers "") quiet) r.1.2 =
    (Completed, r.1.2,
     [download_of (plain_bytes (report_document "A" (getvalue scan_png)))]).
Proof.
  assert (Hr : holds_report (session after_first) "A" scan_png)
    by (split; reflexivity).
  assert (Hq : forall s, fault quiet s = None) by reflexivity.
  split; [exact Hr|]. split; [exact Hq|].
  exact (export_success_repeatable (Some scan_png) None (answers "")
           (answers "") quiet quiet
           (session after_first) busy_directory "A" scan_png Hr Hq Hq).
Defined.

Lemma ready_export_events env (fs : filesystem) t f :
  (ready_export env fs t f).1.2 =
  match first_fault env with
  | Some (s, _) =>
      if before_download s then []
      else [download_of (docx_bytes env (report_document t (getvalue f)))]
  | None => [download_of (docx_bytes env (report_document t (getvalue f)))]
  end.
Proof.
  unfold ready_export, first_fault, call_sites. cbn [first_fault_in].
  repeat (destruct (fault env _); [done|]). done.
Qed.

(** X8.  In a run that reaches the export block (the preview of the
    uploaded file, if any, did not raise), an export of a stored report
    ends with the exception of the first of its calls that fails, and
    normally when none does; the store is never changed.  The download
    button has been shown exactly when no call before it failed, so a
    failing [unlink] ends the run with an exception after the document
    was offered. *)
Theorem export_ends_at_first_fault (u : option UploadedFile)
    (gc : list part -> call_result) (e : environment)
    (ss : session_state) (fs : filesystem) t f :
  holds_report ss t f ->
  display_uploaded u e = Completed ->
  let r := script (export_run_of u gc e) {| session := ss; files := fs |} in
  let offered :=
    [download_of (docx_bytes e (report_document t (getvalue f)))] in
  r.1.1 = match first_fault e with
          | Some (_, cause) => Raised cause
          | None => Completed
          end /\
  r.2 = match first_fault e with
        | Some (s, _) => if before_download s then [] else offered
        | None => offered
        end /\
  session r.1.2 = ss.
Proof.
  intros Hr Hd. cbn zeta. rewrite (script_export_ready _ _ _ _ _ _ _ Hd Hr).
  cbn [fst snd session].
  by rewrite ready_export_status, ready_export_events.
Qed.

Lemma export_ends_at_first_fault_witness :
  holds_report (session after_first) "A" scan_png /\
  display_uploaded (Some scan_png) paragraph_rejected = Completed /\
  let r := script (export_run_of (Some scan_png) (answers "") paragraph_rejected)
             {| session := session after_first; files := ∅ |} in
  let offered :=
    [download_of (plain_bytes (report_document "A" (getvalue scan_png)))] in
  r.1.1 = match first_fault paragraph_rejected with
          | Some (_, cause) => Raised cause
          | None => Completed
          end /\
  r.2 = match first_fault paragraph_rejected with
        | Some (s, _) => if before_download s then [] else offered
        | None => offered
        end /\
  session r.1.2 = session after_first.
Proof.
  assert (Hr : holds_report (session after_first) "A" scan_png)
    by (split; reflexivity).
  assert (Hd : display_uploaded (Some scan_png) paragraph_rejected = Completed)
    by reflexivity.
  split; [exact Hr|]. split; [exact Hd|].
  exact (export_ends_at_first_fault (Some scan_png) (answers "")
           paragraph_rejected (session after_first) ∅ "A" scan_png Hr Hd).
Defined.

Lemma ready_export_leftovers env (fs : filesystem) t f s cause :
  first_fault env = Some (s, cause) ->
  (s = SOpenImage -> (ready_export env fs t f).2 = fs) /\
  (s <> SOpenImage ->
   is_Some ((ready_export env fs t f).2 !! img_path) \/
   is_Some ((ready_export env fs t f).2 !! doc_path)).
Proof.
  unfold ready_export, first_fault, call_sites. cbn [first_fault_in].
  intros Hff.
  destruct (fault env SOpenImage); [by simplify_eq|].
  repeat (destruct (fault env _);
    [simplify_eq; split; [done|]; intros _; cbn [snd];
     first [ left; by simplify_map_eq | right; by simplify_map_eq ] |]).
  done.
Qed.

(** X9.  What a failed export of a stored report leaves on disk, in a
    run that reaches the export block: when the image file cannot even
    be opened, the directory is as before; when any later call of the
    export fails, at least one of the two temporary files is still
    there after the run. *)
Theorem export_failure_leftovers (u : option UploadedFile)
    (gc : list part -> call_result) (e : environment)
    (ss : session_state) (fs : filesystem) t f s cause :
  holds_report ss t f ->
  display_uploaded u e = Completed ->
  first_fault e = Some (s, cause) ->
  let fs' :=
    files (script (export_run_of u gc e) {| session := ss; files := fs |}).1.2 in
  (s = SOpenImage -> fs' = fs) /\
  (s <> SOpenImage -> is_Some (fs' !! img_path) \/ is_Some (fs' !! doc_path)).
Proof.
  intros Hr Hd Hff. cbn zeta.
  rewrite (script_export_ready _ _ _ _ _ _ _ Hd Hr).
  cbn [fst snd files]. by apply (ready_export_leftovers e fs t f s cause).
Qed.

Lemma export_failure_leftovers_witness :
  holds_report (session after_first) "A" scan_png /\
  first_fault read_only_directory =
    Some (SOpenImage, "PermissionError: uploaded_image.jpg") /\
  first_fault paragraph_rejected =
    Some (SAddParagraph,
          "ValueError: All strings must be XML compatible") /\
  files (script (export_run_of (Some scan_png) (answers "") read_only_directory)
           {| session := session after_first; files := busy_directory |}).1.2
    = busy_directory /\
  (is_Some
     (files (script (export_run_of (Some scan_png) (answers "")
                       paragraph_rejected)
               {| session := session after_first; files := ∅ |}).1.2
        !! img_path) \/
   is_Some
     (files (script (export_run_of (Some scan_png) (answers "")
                       paragraph_rejected)
               {| session := session after_first; files := ∅ |}).1.2
        !! doc_path)).
Proof.
  assert (Hr : holds_report (session after_first) "A" scan_png)
    by (split; reflexivity).
  assert (Hff : first_fault read_only_directory =
                Some (SOpenImage, "PermissionError: uploaded_image.jpg"))
    by reflexivity.
  assert (Hff' : first_fault paragraph_rejected =
                 Some (SAddParagraph,
                       "ValueError: All strings must be XML compatible"))
    by reflexivity.
  split; [exact Hr|]. split; [exact Hff|]. split; [exact Hff'|]. split.
  - exact (proj1 (export_failure_leftovers (Some scan_png) (answers "")
                    read_only_directory (session after_first) busy_directory
                    "A" scan_png SOpenImage
                    "PermissionError: uploaded_image.jpg" Hr eq_refl Hff)
             eq_refl).
  - refine (proj2 (export_failure_leftovers (Some scan_png) (answers "")
                     paragraph_rejected (session after_first) ∅
                     "A" scan_png SAddParagraph
                     "ValueError: All strings must be XML compatible"
                     Hr eq_refl Hff') _).
    discriminate.
Defined.

(** ** Runs one after the other *)

Lemma script_generate u gc e (ss : session_state) (fs : filesystem) :
  display_uploaded u e = Completed ->
  script (generate_run u gc e) {| session := ss; files := fs |} =
  (Completed,
   {| session := (generate_handler u gc ss).1; files := fs |},
   (generate_handler u gc ss).2).
Proof.
  intros Hd. unfold script, generate_run.
  cbn [generate_button export_button clear_button uploaded_file
       generate_content env session files].
  rewrite Hd. destruct (generate_handler u gc ss) as [ss1 ev1]. cbn [fst snd].
  by rewrite app_nil_r.
Qed.

Lemma script_clear u gc e (s : app_state) :
  display_uploaded u e = Completed ->
  script (clear_run u gc e) s =
  (Completed, {| session := ∅; files := files s |}, [QueryParamsClear]).
Proof.
  intros Hd. unfold script, clear_run.
  cbn [uploaded_file generate_button export_button clear_button env].
  rewrite Hd. by rewrite clear_handler_empties.
Qed.

(** X10.  Generate, then export: from a store without a report, in a
    run whose preview of the upload [f] did not raise, a successful
    generate answered with [t] stores exactly that pair and touches no
    file; an export after it in which no call fails offers the
    document made of the heading, the bytes of [f] as uploaded and the
    text [t], keeps the report, and leaves neither temporary file. *)
Theorem generate_then_export_round_trip (u : option UploadedFile)
    (gc gc' : list part -> call_result) (e e' : environment)
    (ss : session_state) (fs : filesystem) f t :
  ss !! report_content_key = None ->
  ss !! uploaded_image_key = None ->
  fault e SDisplayImage = None ->
  gc (prompt_input_of f) = CallReturns (RespText t) ->
  (forall s, fault e' s = None) ->
  let s1 := (script (generate_run (Some f) gc e)
               {| session := ss; files := fs |}).1.2 in
  holds_report (session s1) t f /\
  files s1 = fs /\
  script (export_run_of u gc' e') s1 =
    (Completed,
     {| session := session s1; files := delete doc_path (delete img_path fs) |},
     [download_of (docx_bytes e' (report_document t (getvalue f)))]).
Proof.
  intros Hrc Hui Hd Hgc Hq. cbn zeta.
  rewrite script_generate by (unfold display_uploaded; by rewrite Hd).
  cbn [fst snd].
  pose proof (generate_stores_report gc ss f t Hrc Hui Hgc) as Hr.
  split; [exact Hr|]. split; [done|].
  rewrite (script_export_ready _ _ _ _ _ _ _
             (display_uploaded_quiet u e' Hq) Hr).
  by rewrite ready_export_no_fault.
Qed.

Lemma generate_then_export_round_trip_witness :
  (∅ : session_state) !! report_content_key = None /\
  (∅ : session_state) !! uploaded_image_key = None /\
  fault quiet SDisplayImage = None /\
  answers "No abnormality detected. Consult a Doctor."
    (prompt_input_of photo_jpg) =
    CallReturns (RespText "No abnormality detected. Consult a Doctor.") /\
  (forall s, fault quiet s = None) /\
  let s1 := (script (generate_run (Some photo_jpg)
                       (answers "No abnormality detected. Consult a Doctor.")
                       quiet) {| session := ∅; files := ∅ |}).1.2 in
  holds_report (session s1)
    "No abnormality detected. Consult a Doctor." photo_jpg /\
  files s1 = ∅ /\
  script (export_run_of (Some photo_jpg) (answers "") quiet) s1 =
    (Completed,
     {| session := session s1; files := delete doc_path (delete img_path ∅) |},
     [download_of
        (plain_bytes
           (report_document "No abnormality detected. Consult a Doctor."
              (getvalue photo_jpg)))]).
Proof.
  assert (Hrc : (∅ : session_state) !! report_content_key = None)
    by reflexivity.
  assert (Hui : (∅ : session_state) !! uploaded_image_key = None)
    by reflexivity.
  assert (Hd : fault quiet SDisplayImage = None) by reflexivity.
  assert (Hgc : answers "No abnormality detected. Consult a Doctor."
                  (prompt_input_of photo_jpg) =
                CallReturns
                  (RespText "No abnormality detected. Consult a Doctor."))
    by reflexivity.
  assert (Hq : forall s, fault quiet s = None) by reflexivity.
  split; [exact Hrc|]. split; [exact Hui|]. split; [exact Hd|].
  split; [exact Hgc|]. split; [exact Hq|].
  exact (generate_then_export_round_trip (Some photo_jpg)
           (answers "No abnormality detected. Consult a Doctor.")
           (answers "") quiet quiet ∅ ∅ photo_jpg
           "No abnormality detected. Consult a Doctor." Hrc Hui Hd Hgc Hq).
Defined.

(** X11.  Clear, then generate, in runs whose previews did not raise:
    after a clear, whatever the store held, an export only shows the
    no-report warning and writes nothing, and a successful generate
    for the upload [f] answered with [t] leaves a store that is
    exactly the report [(t, f)]. *)
Theorem clear_then_generate_replaces (u u' : option UploadedFile)
    (gc0 gc gc' : list part -> call_result) (e0 e e' : environment)
    (s : app_state) f t :
  display_uploaded u e0 = Completed ->
  display_uploaded u' e' = Completed ->
  fault e SDisplayImage = None ->
  gc (prompt_input_of f) = CallReturns (RespText t) ->
  let s1 := (script (clear_run u gc0 e0) s).1.2 in
  script (export_run_of u' gc' e') s1 =
    (Completed, s1,
     [StWarning "No report available to export. Please generate a report first."])
  /\
  session (script (generate_run (Some f) gc e) s1).1.2 = report_store t f /\
  files (script (generate_run (Some f) gc e) s1).1.2 = files s.
Proof.
  intros Hd0 Hd' Hd Hgc. cbn zeta. rewrite script_clear by done.
  cbn [fst snd]. split.
  - unfold script, export_run_of.
    cbn [uploaded_file generate_button export_button clear_button env
         session files].
    by rewrite Hd'.
  - rewrite script_generate by (unfold display_uploaded; by rewrite Hd).
    cbn [fst snd session files].
    split; [|done]. unfold generate_handler. by rewrite Hgc.
Qed.

Lemma clear_then_generate_replaces_witness :
  display_uploaded (Some scan_png) quiet = Completed /\
  display_uploaded None quiet = Completed /\
  fault quiet SDisplayImage = None /\
  answers "B" (prompt_input_of photo_jpg) = CallReturns (RespText "B") /\
  let s1 := (script (clear_run (Some scan_png) (answers "") quiet)
               after_first).1.2 in
  script (export_run_of None (answers "") quiet) s1 =
    (Completed, s1,
     [StWarning "No report available to export. Please generate a report first."])
  /\
  session (script (generate_run (Some photo_jpg) (answers "B") quiet) s1).1.2
    = report_store "B" photo_jpg /\
  files (script (generate_run (Some photo_jpg) (answers "B") quiet) s1).1.2
    = files after_first.
Proof.
  assert (Hgc : answers "B" (prompt_input_of photo_jpg)
                = CallReturns (RespText "B")) by reflexivity.
  split; [reflexivity|]. split; [reflexivity|]. split; [reflexivity|].
  split; [exact Hgc|].
  exact (clear_then_generate_replaces (Some scan_png) None (answers "")
           (answers "B") (answers "") quiet quiet quiet after_first
           photo_jpg "B" eq_refl eq_refl eq_refl Hgc).
Defined.

(** X12.  In a state reachable from a fresh session an export in which
    no call of the run fails never ends with an exception: either the
    store is empty, the warning is shown and the directory is as
    before, or the store holds a report, its document is offered and
    both temporary files are gone.  The store is unchanged in both
    cases. *)
Theorem reachable_export_completes (u : option UploadedFile)
    (gc : list part -> call_result) (e : environment) (s : app_state) :
  reachable s ->
  (forall c, fault e c = None) ->
  (session s = ∅ /\
   script (export_run_of u gc e) s =
     (Completed, s,
      [StWarning "No report available to export. Please generate a report first."]))
  \/
  (exists t f,
     holds_report (session s) t f /\
     script (export_run_of u gc e) s =
       (Completed,
        {| session := session s;
           files := delete doc_path (delete img_path (files s)) |},
        [download_of (docx_bytes e (report_document t (getvalue f)))])).
Proof.
  intros Hs Hq. destruct s as [ss fs]. cbn [session files].
  pose proof (display_uploaded_quiet u e Hq) as Hd.
  destruct (reachable_shape _ Hs) as [Heq | (t & f & Heq)];
    cbn [session] in Heq; subst ss.
  - left. split; [done|]. unfold script, export_run_of.
    cbn [uploaded_file generate_button export_button clear_button env
         session files].
    by rewrite Hd.
  - right. exists t, f. split; [apply report_store_holds|].
    rewrite (script_export_ready _ _ _ _ _ _ _ Hd (report_store_holds t f)).
    by rewrite ready_export_no_fault.
Qed.

Lemma reachable_export_completes_witness :
  reachable after_second /\
  (forall c, fault quiet c = None) /\
  ((session after_second = ∅ /\
    script (export_run_of (Some photo_jpg) (answers "") quiet) after_second =
      (Completed, after_second,
       [StWarning "No report available to export. Please generate a report first."]))
   \/
   (exists t f,
      holds_report (session after_second) t f /\
      script (export_run_of (Some photo_jpg) (answers "") quiet) after_second =
        (Completed,
         {| session := session after_second;
            files := delete doc_path (delete img_path (files after_second)) |},
         [download_of (docx_bytes quiet (report_document t (getvalue f)))]))).
Proof.
  assert (Hr : reachable after_second)
    by exact (reach_run (click_generate (Some photo_jpg) (answers "B"))
                after_first
                (reach_run (click_generate (Some scan_png) (answers "A")) fresh
                   (reach_start ∅))).
  assert (Hq : forall c, fault quiet c = None) by reflexivity.
  split; [exact Hr|]. split; [exact Hq|].
  exact (reachable_export_completes (Some photo_jpg) (answers "") quiet
           after_second Hr Hq).
Defined.

(** ** Start of the script *)

(** X13.  The run is halted at the start exactly when [GOOGLE_API_KEY]
    is unset or empty.  A halted run has shown the diagnostic and done
    nothing else: no block has run, and the store and the directory are
    as before.  A run that is not halted has configured the client with
    the key as given and then ends as the three blocks do. *)
Theorem main_requires_api_key (key : option string) (i : inputs)
    (s : app_state) :
  ((main key i s).1.1 = Stopped <-> key = None \/ key = Some "") /\
  ((main key i s).1.1 = Stopped ->
   main key i s =
     (Stopped, s,
      [Shown (StError
         "Google API Key not found. Please set 'GOOGLE_API_KEY' in the .env file.")]))
  /\
  (forall st, (main key i s).1.1 = Ended st ->
     exists k, key = Some k /\ k <> "" /\
       (main key i s).2 =
         (SetEnviron "GOOGLE_API_KEY" k :: GenaiConfigure k
            :: (Shown <$> (script i s).2))%list /\
       st = (script i s).1.1 /\
       (main key i s).1.2 = (script i s).1.2).
Proof.
  unfold main. destruct key as [[|c k]|].
  - split; [split; [by right | done]|]. split; [done|]. by intros st.
  - destruct (script i s) as [[st' s'] evs]. cbn [fst snd].
    split; [split; [done | by intros [|]]|]. split; [done|].
    intros st [= <-]. by exists (String c k).
  - split; [split; [by left | done]|]. split; [done|]. by intros st.
Qed.

Lemma main_requires_api_key_witness :
  (main (Some "") (click_generate (Some scan_png) (answers "A")) fresh).1.1
    = Stopped /\
  main (Some "") (click_generate (Some scan_png) (answers "A")) fresh =
    (Stopped, fresh,
     [Shown (StError
        "Google API Key not found. Please set 'GOOGLE_API_KEY' in the .env file.")])
  /\
  (main (Some "test-key")
     (generate_run (Some scan_png) (answers "A") undecodable_upload) fresh).1.1
    = Ended (Raised "UnidentifiedImageError") /\
  exists k,
    Some "test-key" = Some k /\ k <> "" /\
    (main (Some "test-key")
       (generate_run (Some scan_png) (answers "A") undecodable_upload)
       fresh).2 =
      (SetEnviron "GOOGLE_API_KEY" k :: GenaiConfigure k
         :: (Shown <$> (script (generate_run (Some scan_png) (answers "A")
                                  undecodable_upload) fresh).2))%list /\
    Raised "UnidentifiedImageError" =
      (script (generate_run (Some scan_png) (answers "A") undecodable_upload)
         fresh).1.1 /\
    (main (Some "test-key")
       (generate_run (Some scan_png) (answers "A") undecodable_upload)
       fresh).1.2 =
      (script (generate_run (Some scan_png) (answers "A") undecodable_upload)
         fresh).1.2.
Proof.
  assert (Hs : (main (Some "") (click_generate (Some scan_png) (answers "A"))
                  fresh).1.1 = Stopped) by reflexivity.
  assert (He : (main (Some "test-key")
                  (generate_run (Some scan_png) (answers "A")
                     undecodable_upload) fresh).1.1
               = Ended (Raised "UnidentifiedImageError")) by reflexivity.
  split; [exact Hs|]. split.
  - exact (proj1 (proj2 (main_requires_api_key (Some "")
                           (click_generate (Some scan_png) (answers "A"))
                           fresh)) Hs).
  - split; [exact He|].
    exact (proj2 (proj2 (main_requires_api_key (Some "test-key")
                           (generate_run (Some scan_png) (answers "A")
                              undecodable_upload) fresh))
             (Raised "UnidentifiedImageError") He).
Defined.
